(** * download_geohot_blogs.py: a shallow embedding and its properties

    The script crawls a blog index, discovers post URLs, and converts every
    post to a PDF in an output directory.  Python [str] values are modelled
    as [string] (code points below 256); the filesystem directory is a
    finite map from paths to file contents; the network, the HTML parser and
    the PDF renderer are collaborators gathered in an environment record.
    Library calls that can raise return a sum, with the exception on the
    left. *)

From Stdlib Require Import Ascii String.
From stdpp Require Import base decidable numbers option list gmap sets strings sorting.

Local Set Warnings "-register-all,-clear-no-such-hyp".

(** ** Python string primitives *)

Module Py.

Definition ascii_in (c : ascii) (cs : string) : bool :=
  existsb (Ascii.eqb c) (list_ascii_of_string cs).

(** [s[:n]] *)
Fixpoint take (n : nat) (s : string) : string :=
  match n, s with
  | S n', String c s' => String c (take n' s')
  | _, _ => ""
  end.

(** [s[n:]] *)
Fixpoint drop (n : nat) (s : string) : string :=
  match n, s with
  | S n', String _ s' => drop n' s'
  | _, _ => s
  end.

(** [s.replace(old, new)] for one-character [old] and [new] *)
Fixpoint replace (old new : ascii) (s : string) : string :=
  match s with
  | "" => ""
  | String c s' => String (if Ascii.eqb c old then new else c) (replace old new s')
  end.

(** [s.startswith(p)] *)
Fixpoint startswith (s p : string) : bool :=
  match p, s with
  | "", _ => true
  | String a p', String b s' => Ascii.eqb a b && startswith s' p'
  | String _ _, "" => false
  end.

(** [s.endswith(suf)]: some tail of [s] is [suf] *)
Fixpoint endswith (s suf : string) : bool :=
  String.eqb s suf ||
  match s with
  | "" => false
  | String _ s' => endswith s' suf
  end.

(** [str.isspace] on one code point below 256 *)
Definition is_space (c : ascii) : bool :=
  let n := nat_of_ascii c in
  ((9 <=? n) && (n <=? 13)) || ((28 <=? n) && (n <=? 32))
  || (n =? 133) || (n =? 160).

Definition is_digit (c : ascii) : bool :=
  let n := nat_of_ascii c in (48 <=? n) && (n <=? 57).

Definition is_ascii_alpha (c : ascii) : bool :=
  let n := nat_of_ascii c in
  ((65 <=? n) && (n <=? 90)) || ((97 <=? n) && (n <=? 122)).

Definition all_chars (p : ascii → bool) (s : string) : bool :=
  forallb p (list_ascii_of_string s).

Definition is_empty (s : string) : bool :=
  match s with "" => true | _ => false end.

(** [s.isspace()] *)
Definition isspace (s : string) : bool :=
  negb (is_empty s) && all_chars is_space s.

(** [s.lstrip(chars)], [s.rstrip(chars)], [s.strip(chars)] with the set of
    stripped characters given as a predicate *)
Fixpoint lstrip_by (p : ascii → bool) (s : string) : string :=
  match s with
  | String c s' => if p c then lstrip_by p s' else s
  | "" => ""
  end.

Fixpoint rstrip_by (p : ascii → bool) (s : string) : string :=
  match s with
  | String c s' =>
      let r := rstrip_by p s' in
      if p c && is_empty r then "" else String c r
  | "" => ""
  end.

Definition strip_by (p : ascii → bool) (s : string) : string :=
  rstrip_by p (lstrip_by p s).

(** [s.strip()] *)
Definition strip (s : string) : string := strip_by is_space s.

(** [s.strip(chars)] *)
Definition strip_chars (chars : string) (s : string) : string :=
  strip_by (λ c, ascii_in c chars) s.

(** [s.partition(c)] at the first occurrence of [c]: [None] when absent *)
Fixpoint partition (c : ascii) (s : string) : option (string * string) :=
  match s with
  | "" => None
  | String a s' =>
      if Ascii.eqb a c then Some ("", s')
      else match partition c s' with
           | Some (l, r) => Some (String a l, r)
           | None => None
           end
  end.

(** [s.split(c)] *)
Fixpoint split (c : ascii) (s : string) : list string :=
  match s with
  | "" => [""]
  | String a s' =>
      if Ascii.eqb a c then "" :: split c s'
      else match split c s' with
           | w :: ws => String a w :: ws
           | [] => [String a ""]
           end
  end.

(** [sep.join(parts)] *)
Fixpoint join (sep : string) (parts : list string) : string :=
  match parts with
  | [] => ""
  | [w] => w
  | w :: ws => w +:+ sep +:+ join sep ws
  end.

Definition lower_char (c : ascii) : ascii :=
  let n := nat_of_ascii c in
  if (65 <=? n) && (n <=? 90) then ascii_of_nat (n + 32) else c.

(** [s.lower()] on ASCII letters *)
Fixpoint lower (s : string) : string :=
  match s with
  | "" => ""
  | String c s' => String (lower_char c) (lower s')
  end.

(** [s.rpartition(c)] at the last occurrence of [c]: [None] when absent *)
Fixpoint rpartition (c : ascii) (s : string) : option (string * string) :=
  match s with
  | "" => None
  | String a s' =>
      match rpartition c s' with
      | Some (l, r) => Some (String a l, r)
      | None => if Ascii.eqb a c then Some ("", s') else None
      end
  end.

(** the longest prefix without a character of [stop], and the rest *)
Fixpoint span_until (stop : string) (s : string) : string * string :=
  match s with
  | "" => ("", "")
  | String a s' =>
      if ascii_in a stop then ("", s)
      else let '(l, r) := span_until stop s' in (String a l, r)
  end.

(** [s.replace(c, "")] *)
Fixpoint remove_char (c : ascii) (s : string) : string :=
  match s with
  | "" => ""
  | String a s' =>
      if Ascii.eqb a c then remove_char c s' else String a (remove_char c s')
  end.

(** [x in l] for a list of strings *)
Definition mem (x : string) (l : list string) : bool :=
  existsb (String.eqb x) l.

End Py.

(** ** The regular expressions of the script

    Both patterns are sequences of one-character classes, so a pattern is a
    list of classes and a match is the text it covers. *)

Module Re.

Inductive cclass :=
| Lit (c : ascii)          (* a literal character *)
| Digit                    (* \d *)
| OneOf (cs : string).     (* [...] *)

Definition cmatch (k : cclass) (c : ascii) : bool :=
  match k with
  | Lit a => Ascii.eqb c a
  | Digit => Py.is_digit c
  | OneOf cs => Py.ascii_in c cs
  end.

(** match the whole pattern at the start of [s]; the matched text *)
Fixpoint match_here (pat : list cclass) (s : string) : option string :=
  match pat with
  | [] => Some ""
  | k :: pat' =>
      match s with
      | String c s' =>
          if cmatch k c then String c <$> match_here pat' s' else None
      | "" => None
      end
  end.

(** [re.search(pat, s)]: the leftmost match *)
Fixpoint search (pat : list cclass) (s : string) : option string :=
  match match_here pat s with
  | Some m => Some m
  | None =>
      match s with
      | String _ s' => search pat s'
      | "" => None
      end
  end.

(** [re.sub(k, repl, s)] for a one-class pattern [k] *)
Fixpoint sub1 (k : cclass) (repl : string) (s : string) : string :=
  match s with
  | "" => ""
  | String c s' =>
      if cmatch k c then repl +:+ sub1 k repl s' else String c (sub1 k repl s')
  end.

End Re.

(** ** sanitize_filename *)

(** the character class of the pattern: less-than, greater-than, colon,
    double quote (code 34), slash, backslash (code 92), bar, question mark,
    star *)
Definition invalid_chars : string :=
  String "<" (String ">" (String ":" (String (ascii_of_nat 34)
    (String "/" (String (ascii_of_nat 92) (String "|" (String "?" (String "*" "")))))))).

Definition sanitize_filename (title : string) : string :=
  let filename := Re.sub1 (Re.OneOf invalid_chars) "" title in
  let filename := Py.replace " " "_" filename in
  let filename := Py.take 200 filename in
  filename.

(** ** extract_date_from_url *)

(** [/(\d{4})/(\d{2})/(\d{2})/] *)
Definition date_pattern : list Re.cclass :=
  [Re.Lit "/"; Re.Digit; Re.Digit; Re.Digit; Re.Digit;
   Re.Lit "/"; Re.Digit; Re.Digit;
   Re.Lit "/"; Re.Digit; Re.Digit; Re.Lit "/"].

(** the three groups of a match of [date_pattern] *)
Definition date_groups (m : string) : string * string * string :=
  (Py.take 4 (Py.drop 1 m), Py.take 2 (Py.drop 6 m), Py.take 2 (Py.drop 9 m)).

Definition extract_date_from_url (url : string) : option string :=
  match Re.search date_pattern url with
  | Some m =>
      let '(year, month, day) := date_groups m in
      Some (year +:+ "-" +:+ month +:+ "-" +:+ day)
  | None => None
  end.

(** ** Exceptions *)

Inductive exn := Exception (msg : string).

(** [str(e)] *)
Definition str_exn (e : exn) : string :=
  match e with Exception msg => msg end.

(** ** urllib.parse

    The library functions the script calls, [urlparse] and [urljoin],
    following the code of CPython 3.11 for [str] arguments.  [urlsplit]
    raises [ValueError] on a netloc that has one bracket without the other;
    its other test, on the normal form of the netloc, never fails on code
    points below 256. *)

Module Url.

Definition uses_relative : list string :=
  [""; "ftp"; "http"; "gopher"; "nntp"; "imap"; "wais"; "file"; "https";
   "shttp"; "mms"; "prospero"; "rtsp"; "rtsps"; "rtspu"; "sftp"; "svn";
   "svn+ssh"; "ws"; "wss"].

Definition uses_netloc : list string :=
  [""; "ftp"; "http"; "gopher"; "nntp"; "telnet"; "imap"; "wais"; "file";
   "mms"; "https"; "shttp"; "snews"; "prospero"; "rtsp"; "rtsps"; "rtspu";
   "rsync"; "svn"; "svn+ssh"; "sftp"; "nfs"; "git"; "git+ssh"; "ws"; "wss";
   "itms-services"].

Definition uses_params : list string :=
  [""; "ftp"; "hdl"; "prospero"; "http"; "imap"; "https"; "shttp"; "rtsp";
   "rtsps"; "rtspu"; "sip"; "sips"; "mms"; "sftp"; "tel"].

Definition scheme_chars : string :=
  "abcdefghijklmnopqrstuvwxyzABCDEFGHIJKLMNOPQRSTUVWXYZ0123456789+-.".

Record ParseResult := {
  scheme : string;
  netloc : string;
  path : string;
  params : string;
  query : string;
  fragment : string
}.

(** the scheme of [url], lowered, and what follows the colon *)
Definition split_scheme (default : string) (url : string) : string * string :=
  match Py.partition ":" url with
  | Some (String c0 s0, rest) =>
      if Py.is_ascii_alpha c0
         && Py.all_chars (λ c, Py.ascii_in c scheme_chars) (String c0 s0)
      then (Py.lower (String c0 s0), rest)
      else (default, url)
  | _ => (default, url)
  end.

(** [_splitnetloc(url, 2)] when [url] starts with two slashes *)
Definition split_netloc (url : string) : string * string :=
  if Py.startswith url "//" then Py.span_until "/?#" (Py.drop 2 url)
  else ("", url).

(** the test of [urlsplit] on the netloc: a bracket without its pair *)
Definition invalid_ipv6 (net : string) : bool :=
  (Py.ascii_in "[" net && negb (Py.ascii_in "]" net))
  || (Py.ascii_in "]" net && negb (Py.ascii_in "[" net)).

(** [urlsplit(url, scheme)]: scheme, netloc, path, query, fragment, or the
    [ValueError] *)
Definition urlsplit (url default : string)
  : exn + string * string * string * string * string :=
  let url := Py.remove_char "009" (Py.remove_char "013" (Py.remove_char "010" url)) in
  let '(sch, url) := split_scheme default url in
  let '(net, url) := split_netloc url in
  if invalid_ipv6 net then inl (Exception "Invalid IPv6 URL")
  else
    let '(url, frag) :=
      match Py.partition "#" url with Some p => p | None => (url, "") end in
    let '(url, qry) :=
      match Py.partition "?" url with Some p => p | None => (url, "") end in
    inr (sch, net, url, qry, frag).

(** the five parts that [urlsplit] returns when it returns, as a total
    function *)
Definition split_parts (url default : string)
  : string * string * string * string * string :=
  let url := Py.remove_char "009" (Py.remove_char "013" (Py.remove_char "010" url)) in
  let '(sch, url) := split_scheme default url in
  let '(net, url) := split_netloc url in
  let '(url, frag) :=
    match Py.partition "#" url with Some p => p | None => (url, "") end in
  let '(url, qry) :=
    match Py.partition "?" url with Some p => p | None => (url, "") end in
  (sch, net, url, qry, frag).

(** [_splitparams(url)], called when [url] has a semicolon *)
Definition splitparams (url : string) : string * string :=
  match Py.rpartition "/" url with
  | Some (head, last) =>
      match Py.partition ";" last with
      | Some (l, prm) => (head +:+ "/" +:+ l, prm)
      | None => (url, "")
      end
  | None =>
      match Py.partition ";" url with
      | Some p => p
      | None => (url, "")
      end
  end.

(** what [urlparse] does with the result of [urlsplit] *)
Definition with_params (parts : string * string * string * string * string)
  : ParseResult :=
  let '(sch, net, url, qry, frag) := parts in
  let '(url, prm) :=
    if Py.mem sch uses_params && Py.ascii_in ";" url
    then splitparams url else (url, "") in
  {| scheme := sch; netloc := net; path := url; params := prm;
     query := qry; fragment := frag |}.

Definition urlparse_with (url default : string) : exn + ParseResult :=
  match urlsplit url default with
  | inl e => inl e
  | inr parts => inr (with_params parts)
  end.

(** [urlparse(url)] *)
Definition urlparse (url : string) : exn + ParseResult := urlparse_with url "".

(** the result of [urlparse(url)] when it returns, as a total function *)
Definition parse_parts (url : string) : ParseResult :=
  with_params (split_parts url "").

Definition urlunsplit (sch net url qry frag : string) : string :=
  let url :=
    if negb (Py.is_empty net)
       || (negb (Py.is_empty sch) && Py.mem sch uses_netloc
           && negb (Py.startswith url "//"))
    then "//" +:+ net +:+
         (if negb (Py.is_empty url) && negb (Py.startswith url "/")
          then "/" +:+ url else url)
    else url in
  let url := if Py.is_empty sch then url else sch +:+ ":" +:+ url in
  let url := if Py.is_empty qry then url else url +:+ "?" +:+ qry in
  let url := if Py.is_empty frag then url else url +:+ "#" +:+ frag in
  url.

Definition urlunparse (r : ParseResult) : string :=
  let url :=
    if Py.is_empty (params r) then path r else path r +:+ ";" +:+ params r in
  urlunsplit (scheme r) (netloc r) url (query r) (fragment r).

(** [segments[1:-1] = filter(None, segments[1:-1])] *)
Definition filter_interior (segments : list string) : list string :=
  match segments with
  | first :: (_ :: _) as rest =>
      first :: filter (λ w, w ≠ "") (removelast rest) ++ [List.last rest ""]
  | _ => segments
  end.

(** the loop that resolves dot segments *)
Fixpoint resolve (segments resolved_path : list string) : list string :=
  match segments with
  | [] => resolved_path
  | seg :: segments' =>
      if String.eqb seg ".." then resolve segments' (removelast resolved_path)
      else if String.eqb seg "." then resolve segments' resolved_path
      else resolve segments' (resolved_path ++ [seg])
  end.

(** [urljoin(base, url)] once both are parsed *)
Definition join_parsed (url : string) (b u : ParseResult) : string :=
  if negb (String.eqb (scheme u) (scheme b))
     || negb (Py.mem (scheme u) uses_relative)
  then url
  else if Py.mem (scheme u) uses_netloc && negb (Py.is_empty (netloc u))
  then urlunparse u
  else
    let net := if Py.mem (scheme u) uses_netloc then netloc b else netloc u in
    if Py.is_empty (path u) && Py.is_empty (params u) then
      urlunparse
        {| scheme := scheme u; netloc := net; path := path b;
           params := params b;
           query := if Py.is_empty (query u) then query b else query u;
           fragment := fragment u |}
    else
      let base_parts := Py.split "/" (path b) in
      let base_parts :=
        if String.eqb (List.last base_parts "") "" then base_parts
        else removelast base_parts in
      let segments :=
        if Py.startswith (path u) "/" then Py.split "/" (path u)
        else filter_interior (base_parts ++ Py.split "/" (path u)) in
      let resolved_path := resolve segments [] in
      let resolved_path :=
        if Py.mem (List.last segments "") ["."; ".."]
        then resolved_path ++ [""] else resolved_path in
      let joined := Py.join "/" resolved_path in
      urlunparse
        {| scheme := scheme u; netloc := net;
           path := if Py.is_empty joined then "/" else joined;
           params := params u; query := query u; fragment := fragment u |}.

(** [urljoin(base, url)] *)
Definition urljoin (base url : string) : exn + string :=
  if Py.is_empty base then inr url
  else if Py.is_empty url then inr base
  else
    match urlparse_with base "" with
    | inl e => inl e
    | inr b =>
        match urlparse_with url (scheme b) with
        | inl e => inl e
        | inr u => inr (join_parsed url b u)
        end
    end.

End Url.

(** ** bs4: the parsed document

    A document is the list of top-level nodes of the [BeautifulSoup] object.
    [Comment] stands for the string kinds that [get_text] leaves out. *)

Module Bs4.

Inductive node :=
| Tag (name : string) (attrs : gmap string string) (contents : list node)
| NavigableString (text : string)
| Comment (text : string).

Definition soup := list node.

(** a node followed by its descendants, in document order *)
Fixpoint self_and_descendants (n : node) : list node :=
  n :: match n with
       | Tag _ _ cs => flat_map self_and_descendants cs
       | _ => []
       end.

Definition descendants (doc : soup) : list node :=
  flat_map self_and_descendants doc.

Definition tag_name (n : node) : option string :=
  match n with Tag nm _ _ => Some nm | _ => None end.

Definition has_name (names : list string) (n : node) : bool :=
  match n with Tag nm _ _ => Py.mem nm names | _ => false end.

(** the whitespace-separated values of a [class] attribute *)
Fixpoint class_values (cur : string) (s : string) : list string :=
  match s with
  | "" => if Py.is_empty cur then [] else [cur]
  | String c s' =>
      if Py.is_space c
      then (if Py.is_empty cur then [] else [cur]) ++ class_values "" s'
      else class_values (cur +:+ String c "") s'
  end.

(** the filter [class_=c] *)
Definition has_class (c : string) (n : node) : bool :=
  match n with
  | Tag _ attrs _ =>
      match attrs !! "class" with
      | Some v => Py.mem c (class_values "" v)
      | None => false
      end
  | _ => false
  end.

(** [doc.find_all(...)] for a filter on nodes *)
Definition find_all (p : node → bool) (doc : soup) : list node :=
  filter (λ n, p n = true) (descendants doc).

(** [doc.find(name)]: [find_all] limited to one result *)
Definition find (name : string) (doc : soup) : option node :=
  head (find_all (has_name [name]) doc).

(** [n.get_text()] *)
Definition get_text (n : node) : string :=
  foldr (λ d acc, match d with NavigableString t => t +:+ acc | _ => acc end)
        "" (self_and_descendants n).

(** [decompose] every node of [find_all p]: it goes with all below it *)
Fixpoint prune (p : node → bool) (n : node) : list node :=
  if p n then []
  else match n with
       | Tag nm attrs cs => [Tag nm attrs (flat_map (prune p) cs)]
       | _ => [n]
       end.

Definition decompose_all (p : node → bool) (doc : soup) : soup :=
  flat_map (prune p) doc.

(** [doc.find(name).append(child)]: [None] when there is no such tag *)
Fixpoint append_in (name : string) (child : node) (n : node) : option node :=
  match n with
  | Tag nm attrs cs =>
      if String.eqb nm name then Some (Tag nm attrs (cs ++ [child]))
      else
        Tag nm attrs <$>
          (fix go (l : list node) : option (list node) :=
             match l with
             | [] => None
             | c :: l' =>
                 match append_in name child c with
                 | Some c' => Some (c' :: l')
                 | None => cons c <$> go l'
                 end
             end) cs
  | _ => None
  end.

Fixpoint append_to_first (name : string) (child : node) (doc : soup)
  : option soup :=
  match doc with
  | [] => None
  | c :: doc' =>
      match append_in name child c with
      | Some c' => Some (c' :: doc')
      | None => cons c <$> append_to_first name child doc'
      end
  end.

End Bs4.

(** ** get_blog_title *)

Fixpoint first_heading (headings : list string) (soup : Bs4.soup) : option string :=
  match headings with
  | [] => None
  | heading :: headings' =>
      match Bs4.find heading soup with
      | Some title => Some (Py.strip (Bs4.get_text title))
      | None => first_heading headings' soup
      end
  end.

Definition get_blog_title (soup : Bs4.soup) : string :=
  match Bs4.find "h1" soup with
  | Some title => Py.strip (Bs4.get_text title)
  | None =>
      match Bs4.find "title" soup with
      | Some title => Py.strip (Bs4.get_text title)
      | None =>
          match first_heading ["h2"; "h3"] soup with
          | Some title => title
          | None => "untitled"
          end
      end
  end.

(** ** clean_html_for_pdf *)

Definition denied_classes : list string :=
  ["site-header"; "site-nav"; "page-header"; "site-title";
   "site-description"; "trigger"; "page-link"].

Definition style_text : string :=
  "
        body { padding: 20px; }
        .post-content { position: relative; z-index: 1; }
        h1, h2, h3 { break-after: avoid; }
        pre, code { break-inside: avoid; }
    ".

(** The document is changed in place and returned: after the call the
    caller's [soup] and the result are the same object, the value below. *)
Definition clean_html_for_pdf (soup : Bs4.soup) : Bs4.soup :=
  let soup := Bs4.decompose_all (Bs4.has_name ["header"; "nav"]) soup in
  let soup :=
    foldl (λ doc class_name, Bs4.decompose_all (Bs4.has_class class_name) doc)
          soup denied_classes in
  let soup := Bs4.decompose_all (Bs4.has_name ["footer"]) soup in
  let style_tag := Bs4.Tag "style" ∅ [Bs4.NavigableString style_text] in
  match Bs4.append_to_first "head" style_tag soup with
  | Some soup' => soup'
  | None => soup
  end.

(** ** The filename of a post (lines 148 to 161 of the converter) *)

(** the filename, or the exception of [urlparse] when the title gives no
    name *)
Definition derive_filename (soup : Bs4.soup) (url : string) : exn + string :=
  let title := get_blog_title soup in
  let filename := sanitize_filename title in
  match
    (if Py.is_empty filename || Py.isspace filename then
       match Url.urlparse url with
       | inl e => inl e
       | inr parsed_url =>
           let filename :=
             Py.strip_chars "_" (Py.replace "/" "_" (Url.path parsed_url)) in
           inr (if Py.is_empty filename then "blog_post" else filename)
       end
     else inr filename)
  with
  | inl e => inl e
  | inr filename =>
      match extract_date_from_url url with
      | Some date => inr (date +:+ "_" +:+ filename)
      | None => inr filename
      end
  end.

(** The three steps of the derivation when [urlparse] returns, as total
    functions of the document and the URL: [derive_filename] returns
    [post_filename] whenever it returns. *)
Definition fallback_filename (url : string) : string :=
  let filename :=
    Py.strip_chars "_" (Py.replace "/" "_" (Url.path (Url.parse_parts url))) in
  if Py.is_empty filename then "blog_post" else filename.

Definition base_filename (soup : Bs4.soup) (url : string) : string :=
  let title := get_blog_title soup in
  let filename := sanitize_filename title in
  if Py.is_empty filename || Py.isspace filename
  then fallback_filename url
  else filename.

Definition post_filename (soup : Bs4.soup) (url : string) : string :=
  let filename := base_filename soup url in
  match extract_date_from_url url with
  | Some date => date +:+ "_" +:+ filename
  | None => filename
  end.

(** [output_dir / name] *)
Definition path_join (output_dir name : string) : string :=
  output_dir +:+ "/" +:+ name.

(** ** Link discovery: the filter and the ordering of get_blog_posts *)

(** The iteration order of a Python [set] of strings depends on the hash
    seed of the process: any enumeration of the elements. *)
Record HashSeed := {
  set_iter : gset string → list string;
  set_iter_perm : ∀ X, set_iter X ≡ₚ elements X
}.

(** [link['href']] for [link] in [soup.find_all('a', href=True)] *)
Definition anchor_hrefs (soup : Bs4.soup) : list string :=
  omap (λ n, match n with
             | Bs4.Tag nm attrs _ =>
                 if String.eqb nm "a" then attrs !! "href" else None
             | _ => None
             end) (Bs4.descendants soup).

(** the loop over the anchors *)
Fixpoint collect_links (base_url : string) (hrefs : list string)
                       (blog_links : list string) : exn + list string :=
  match hrefs with
  | [] => inr blog_links
  | href :: hrefs' =>
      if Py.is_empty href || Py.startswith href "#" || Py.startswith href "http"
         || String.eqb href "/"
      then collect_links base_url hrefs' blog_links
      else
        match Url.urljoin base_url href with
        | inl e => inl e
        | inr full_url =>
            if Py.startswith full_url base_url
               && negb (String.eqb full_url base_url)
               && Py.endswith full_url ".html"
            then collect_links base_url hrefs' (blog_links ++ [full_url])
            else collect_links base_url hrefs' blog_links
        end
  end.

(** [sorted(list(set(blog_links)))] *)
Definition sorted_unique (h : HashSeed) (blog_links : list string) : list string :=
  merge_sort String.le (set_iter h (list_to_set blog_links)).

Definition blog_links_of (h : HashSeed) (base_url : string) (soup : Bs4.soup)
  : exn + list string :=
  match collect_links base_url (anchor_hrefs soup) [] with
  | inl e => inl e
  | inr blog_links => inr (sorted_unique h blog_links)
  end.

(** ** Effects: exceptions, the output directory, the failure list *)

Inductive event :=
| EvGet (url : string)                   (* requests.get *)
| EvRender (html base_url : string)      (* HTML(string=, base_url=) rendered *)
| EvWrite (path content : string)        (* a file written *)
| EvSleep.                               (* time.sleep(0.5) *)

(** The collaborators of the script.  [requests_get] is [requests.get]
    followed by [raise_for_status], giving [response.text]; [html_parser] is
    [BeautifulSoup(text, 'html.parser')], which raises on markup that the
    parser rejects; [render] is the renderer, which either raises or yields
    the bytes of the PDF; [stat_error] is the error that the system raises
    when asked about a path that is not there, such as a file name that is
    too long, [None] when it answers; [open_for_write] tells whether opening
    a path for writing raises. *)
Record Env := {
  requests_get : string → exn + string;
  html_parser : string → exn + Bs4.soup;
  soup_str : Bs4.soup → string;
  WEASYPRINT_AVAILABLE : bool;
  render : string → string → exn + string;
  stat_error : string → option exn;
  open_for_write : string → option exn
}.

(** What the run can change: the files of the output directory, the list
    object [failed_urls] that [main] creates and shares with the converter,
    and the trace of the calls made outside the script. *)
Record World := {
  fs : gmap string string;
  failed_urls : list (string * string);
  trace : list event
}.

Definition M (A : Type) : Type := World → (exn + A) * World.

Global Instance M_ret : MRet M := λ A (a : A) w, (inr a, w).
Global Instance M_bind : MBind M := λ A B (f : A → M B) (m : M A) w,
  match m w with
  | (inl e, w') => (inl e, w')
  | (inr a, w') => f a w'
  end.

Definition raise {A} (e : exn) : M A := λ w, (inl e, w).

(** [try: body except Exception as e: handler(e)] *)
Definition try_except {A} (body : M A) (handler : exn → M A) : M A := λ w,
  match body w with
  | (inl e, w') => handler e w'
  | (inr a, w') => (inr a, w')
  end.

(** the three ways a world changes *)
Definition logged (ev : event) (w : World) : World :=
  {| fs := fs w; failed_urls := failed_urls w; trace := trace w ++ [ev] |}.

Definition recorded (entry : string * string) (w : World) : World :=
  {| fs := fs w; failed_urls := failed_urls w ++ [entry]; trace := trace w |}.

Definition stored (path content : string) (w : World) : World :=
  {| fs := <[path := content]> (fs w); failed_urls := failed_urls w;
     trace := trace w |}.

Definition emit (ev : event) : M () := λ w, (inr (), logged ev w).

(** [failed_urls.append(entry)] *)
Definition failed_urls_append (entry : string * string) : M () := λ w,
  (inr (), recorded entry w).

(** [failed_urls = []] *)
Definition failed_urls_reset : M () := λ w,
  (inr (), {| fs := fs w; failed_urls := []; trace := trace w |}).

(** a call of a library function that can raise *)
Definition lift {A} (r : exn + A) : M A := λ w, (r, w).

(** [path.exists()]: [True] for a file that is there, and otherwise [False]
    unless the system raises an error that [exists] does not ignore *)
Definition path_exists (E : Env) (path : string) : M bool := λ w,
  if bool_decide (is_Some (fs w !! path)) then (inr true, w)
  else match stat_error E path with
       | Some e => (inl e, w)
       | None => (inr false, w)
       end.

(** open [path] for writing and write [content] *)
Definition write_file (E : Env) (path content : string) : M () := λ w,
  match open_for_write E path with
  | Some e => (inl e, w)
  | None => (inr (), logged (EvWrite path content) (stored path content w))
  end.

(** [requests.get(url)] and [raise_for_status()] *)
Definition http_get (E : Env) (url : string) : M string :=
  emit (EvGet url);;
  match requests_get E url with
  | inl e => raise e
  | inr text => mret text
  end.

(** [HTML(string=html, base_url=url).write_pdf(pdf_path)]: the file is
    written once the document is rendered *)
Definition write_pdf (E : Env) (html base_url pdf_path : string) : M () :=
  emit (EvRender html base_url);;
  match render E html base_url with
  | inl e => raise e
  | inr pdf => write_file E pdf_path pdf
  end.

(** ** get_blog_posts *)

Definition get_blog_posts (E : Env) (h : HashSeed) (base_url : string)
  : M (list string) :=
  text ← http_get E base_url;
  soup ← lift (html_parser E text);
  lift (blog_links_of h base_url soup).

(** ** download_and_convert_to_pdf *)

Inductive result := success | existing | error.

Definition download_and_convert_to_pdf (E : Env) (url output_dir : string)
  : M result :=
  text ← http_get E url;
  soup ← lift (html_parser E text);
  filename ← lift (derive_filename soup url);
  let pdf_path := path_join output_dir (filename +:+ ".pdf") in
  found ← path_exists E pdf_path;
  if (found : bool) then mret existing
  else if negb (WEASYPRINT_AVAILABLE E) then
    failed_urls_append (url, "weasyprint not installed");;
    mret error
  else
    try_except
      (let cleaned_soup := clean_html_for_pdf soup in
       let cleaned_html := soup_str E cleaned_soup in
       write_pdf E cleaned_html url pdf_path;;
       mret success)
      (λ e,
         let error_msg := str_exn e in
         failed_urls_append (url, error_msg);;
         let html_backup_path := path_join output_dir (filename +:+ ".html") in
         try_except (write_file E html_backup_path text) (λ _, mret ());;
         mret error).

(** ** main *)

Record tally := {
  new_count : nat;
  existing_count : nat;
  error_count : nat
}.

Definition tally0 : tally :=
  {| new_count := 0; existing_count := 0; error_count := 0 |}.

(** one iteration of the loop of [main] *)
Definition process_post (E : Env) (output_dir url : string) (t : tally) : M tally :=
  try_except
    (r ← download_and_convert_to_pdf E url output_dir;
     let t' :=
       match r with
       | success => {| new_count := new_count t + 1;
                       existing_count := existing_count t;
                       error_count := error_count t |}
       | existing => {| new_count := new_count t;
                        existing_count := existing_count t + 1;
                        error_count := error_count t |}
       | error => {| new_count := new_count t;
                     existing_count := existing_count t;
                     error_count := error_count t + 1 |}
       end in
     emit EvSleep;;
     mret t')
    (λ e,
       failed_urls_append (url, str_exn e);;
       mret {| new_count := new_count t;
               existing_count := existing_count t;
               error_count := error_count t + 1 |}).

(** [for url in blog_urls: ...] *)
Fixpoint process_posts (E : Env) (output_dir : string) (blog_urls : list string)
                       (t : tally) : M tally :=
  match blog_urls with
  | [] => mret t
  | url :: rest =>
      t' ← process_post E output_dir url t;
      process_posts E output_dir rest t'
  end.

(** what the summary prints *)
Record summary := {
  counts : tally;
  total_pdfs : nat;
  shown_failures : list (string * string);
  more_failures : nat
}.

Inductive outcome :=
| FatalError (msg : string)
| NoPosts
| Summary (s : summary).

(** [path] is matched by [output_dir.glob('*.pdf')]: a name in the
    directory itself that ends with the extension *)
Definition glob_pdf (output_dir path : string) : bool :=
  Py.startswith path (output_dir +:+ "/")
  && (let name := Py.drop (String.length output_dir + 1) path in
      negb (Py.is_empty name) && negb (Py.ascii_in "/" name)
      && Py.endswith name ".pdf").

(** the summary printed at the end of the run *)
Definition summarize (output_dir : string) (t : tally) : M outcome := λ w,
  (inr (Summary
     {| counts := t;
        total_pdfs :=
          length (filter (λ p, glob_pdf output_dir p = true)
                    (elements (dom (fs w))));
        shown_failures :=
          (λ '(url, err), (url, Py.take 80 err)) <$> take 10 (failed_urls w);
        more_failures := length (failed_urls w) - 10 |}), w).

(** the body of the outer [try] *)
Definition main_body (E : Env) (h : HashSeed) (base_url output_dir : string)
  : M outcome :=
  blog_urls ← get_blog_posts E h base_url;
  match blog_urls with
  | [] => mret NoPosts
  | _ =>
      failed_urls_reset;;
      t ← process_posts E output_dir blog_urls tally0;
      summarize output_dir t
  end.

Definition main_from (E : Env) (h : HashSeed) (base_url output_dir : string)
  : World → outcome * World := λ w,
  match main_body E h base_url output_dir w with
  | (inl e, w') => (FatalError (str_exn e), w')
  | (inr o, w') => (o, w')
  end.

Definition main (E : Env) (h : HashSeed) : World → outcome * World :=
  main_from E h "https://geohot.github.io/blog/" "blogs".

(** ** Specification-side definitions *)

(** The characters the sanitization strips, as the specification lists them. *)
Definition forbidden_set : list ascii :=
  ["<"; ">"; ":"; "034"; "/"; "092"; "|"; "?"; "*"]%char.

(** Sanitization in the words of the specification, on the characters of the
    title: strip the forbidden characters, replace spaces with underscores,
    truncate to 200 characters. *)
Definition sanitize_spec (title : list ascii) : list ascii :=
  take 200
    ((λ c, if decide (c = " "%char) then "_"%char else c) <$>
       filter (λ c, c ∉ forbidden_set) title).

(** [s] is made of [n] decimal digits. *)
Definition digits (n : nat) (s : string) : Prop :=
  String.length s = n ∧ Py.all_chars Py.is_digit s = true.


(** [r] is the first element named [name] of the document, in document
    order, or [None] when the document has no such element. *)
Definition first_element (name : string) (soup : Bs4.soup) (r : option Bs4.node)
  : Prop :=
  match r with
  | Some n =>
      ∃ before after,
        Bs4.descendants soup = before ++ n :: after
        ∧ Bs4.tag_name n = Some name
        ∧ ∀ x, x ∈ before → Bs4.tag_name x ≠ Some name
  | None => ∀ x, x ∈ Bs4.descendants soup → Bs4.tag_name x ≠ Some name
  end.

(** the text of a candidate element *)
Definition element_text (n : Bs4.node) : string := Py.strip (Bs4.get_text n).



(** the document of a page that the parser accepts *)
Definition soup_of (E : Env) (text : string) : Bs4.soup :=
  match html_parser E text with
  | inr soup => soup
  | inl _ => []
  end.

(** The exception that a conversion raises between the fetch of the page
    [text] and the check of the PDF: that of the parser, or that of
    [urlparse] in the derivation of the filename; [None] when the filename is
    computed, and is then [post_filename] of the document. *)
Definition filename_error (E : Env) (url text : string) : option exn :=
  match html_parser E text with
  | inl e => Some e
  | inr soup =>
      match derive_filename soup url with
      | inl e => Some e
      | inr _ => None
      end
  end.

(** The paths of the PDF and of the HTML backup of a post whose page is
    [text]: the same base name with two extensions. *)
Definition pdf_path_of (E : Env) (output_dir url text : string) : string :=
  path_join output_dir (post_filename (soup_of E text) url +:+ ".pdf").

Definition html_path_of (E : Env) (output_dir url text : string) : string :=
  path_join output_dir (post_filename (soup_of E text) url +:+ ".html").

(** the markup handed to the renderer *)
Definition cleaned_html_of (E : Env) (text : string) : string :=
  soup_str E (clean_html_for_pdf (soup_of E text)).

(** The check of the PDF path in a directory has returned [False]: the file
    is not there and the system has raised no error. *)
Definition checked_absent (E : Env) (w : World) (path : string) : Prop :=
  fs w !! path = None ∧ stat_error E path = None.

(** What the [try] block of the converter comes to: the error raised by the
    renderer or by opening the PDF path, or the bytes written. *)
Definition render_attempt (E : Env) (html url pdf_path : string) : exn + string :=
  match render E html url with
  | inl e => inl e
  | inr pdf =>
      match open_for_write E pdf_path with
      | Some e => inl e
      | None => inr pdf
      end
  end.

(** the files written, the pages fetched and the renderings, in a trace *)
Definition written (evs : list event) : list (string * string) :=
  omap (λ ev, match ev with EvWrite p c => Some (p, c) | _ => None end) evs.

Definition fetched (evs : list event) : list string :=
  omap (λ ev, match ev with EvGet u => Some u | _ => None end) evs.

Definition rendered (evs : list event) : list (string * string) :=
  omap (λ ev, match ev with EvRender html u => Some (html, u) | _ => None end) evs.

(** the events of a run from [w] to [w'] *)
Definition events_since (w w' : World) : list event :=
  drop (length (trace w)) (trace w').

Definition processed (t : tally) : nat :=
  new_count t + existing_count t + error_count t.

Definition count_error (t : tally) : tally :=
  {| new_count := new_count t; existing_count := existing_count t;
     error_count := error_count t + 1 |}.

(** ** Sample documents and URLs *)

Module Sample.

(** a post with a title element and a level-2 heading, and no h1 *)
Definition titled_doc : Bs4.soup :=
  [Bs4.Tag "html" ∅
     [Bs4.Tag "head" ∅ [Bs4.Tag "title" ∅ [Bs4.NavigableString "  My Blog "]];
      Bs4.Tag "body" ∅
        [Bs4.Tag "header" ∅ [Bs4.NavigableString "menu"];
         Bs4.Tag "h2" ∅ [Bs4.NavigableString "Part one"]]]].

(** a post whose h1 element holds no text *)
Definition untitled_doc : Bs4.soup :=
  [Bs4.Tag "html" ∅ [Bs4.Tag "body" ∅ [Bs4.Tag "h1" ∅ []]]].

Definition anchor (href : string) : Bs4.node :=
  Bs4.Tag "a" {[ "href" := href ]} [Bs4.NavigableString "link"].

(** an index page with the six anchors of the discovery example *)
Definition index_doc : Bs4.soup :=
  [Bs4.Tag "html" ∅
     [Bs4.Tag "body" ∅
        [anchor "#x"; anchor "https://ext/a.html"; anchor "/";
         Bs4.Tag "ul" ∅ [anchor "/blog/p1.html"; anchor "/blog/p1.html"];
         Bs4.Tag "a" ∅ [Bs4.NavigableString "no target"];
         anchor "/blog/p2.txt"]]].

(** a seed under which a set is iterated in the order of [elements] *)
Definition seed : HashSeed :=
  {| set_iter := elements; set_iter_perm := λ X, reflexivity (elements X) |}.

(** the length of a name in bytes, two for a code point from 128 on *)
Definition utf8_length (s : string) : nat :=
  foldr (λ c n, (if nat_of_ascii c <? 128 then 1 else 2) + n) 0
        (list_ascii_of_string s).

(** a system that refuses a file name of more than 255 bytes *)
Definition name_too_long (path : string) : option exn :=
  let name :=
    match Py.rpartition "/" path with
    | Some (_, name) => name
    | None => path
    end in
  if 255 <? utf8_length name
  then Some (Exception ("[Errno 36] File name too long: " +:+ path))
  else None.

Definition index_text : string := "<html>index</html>".
Definition post_text : string := "<html>post</html>".

(** a site that serves the index page and the post [p1.html]; the
    renderer and the directory as given *)
Definition site (rendering : string → string → exn + string)
                (opening : string → option exn) : Env :=
  {| requests_get := λ url,
       if String.eqb url "https://site/blog/" then inr index_text
       else if String.eqb url "https://site/blog/p1.html" then inr post_text
       else inl (Exception "404 Client Error");
     html_parser := λ text,
       inr (if String.eqb text index_text then index_doc else titled_doc);
     soup_str := λ _, "<html>cleaned</html>";
     WEASYPRINT_AVAILABLE := true;
     render := rendering;
     stat_error := name_too_long;
     open_for_write := opening |}.

(** an empty output directory, before the run *)
Definition empty_world : World := {| fs := ∅; failed_urls := []; trace := [] |}.

(** the renderer works and every path can be written *)
Definition env : Env := site (λ _ _, inr "%PDF-1.7") (λ _, None).

Fixpoint repeat_string (n : nat) (s : string) : string :=
  match n with
  | 0 => ""
  | S n' => s +:+ repeat_string n' s
  end.

Definition colon_url : string := "https://geohot.github.io/blog/a:b.html".

Definition long_url : string :=
  "https://geohot.github.io/blog/" +:+ repeat_string 25 "0123456789" +:+ ".html".

End Sample.

(** ** Further specification-side definitions *)

(** a character that sanitization keeps as it is *)
Definition plain_char (c : ascii) : Prop :=
  (c ∉ forbidden_set) ∧ (c ≠ " "%char).

(** a title that sanitization has nothing to do on *)
Definition clean_title (title : string) : Prop :=
  Forall plain_char (list_ascii_of_string title) ∧ String.length title ≤ 200.

(** an element that cleaning removes, with all below it *)
Definition is_chrome (n : Bs4.node) : bool :=
  Bs4.has_name ["header"; "nav"; "footer"] n
  || existsb (λ class_name, Bs4.has_class class_name n) denied_classes.

(** the style element that cleaning adds to the head *)
Definition style_tag : Bs4.node :=
  Bs4.Tag "style" ∅ [Bs4.NavigableString style_text].

(** a filter that looks at the name and the attributes of an element only *)
Definition label_only (p : Bs4.node → bool) : Prop :=
  ∀ nm attrs cs cs', p (Bs4.Tag nm attrs cs) = p (Bs4.Tag nm attrs cs').


(** A run has nothing left to create for [url] in a directory with the files
    [D]: the page cannot be fetched or parsed or named, or its PDF is there,
    or the check of the PDF raises, or there is no renderer, or the rendering
    raises and the backup is there or cannot be written. *)
Definition settled (E : Env) (output_dir : string) (D : gset string) (url : string)
  : Prop :=
  match requests_get E url with
  | inl _ => True
  | inr text =>
      is_Some (filename_error E url text)
      ∨ pdf_path_of E output_dir url text ∈ D
      ∨ is_Some (stat_error E (pdf_path_of E output_dir url text))
      ∨ WEASYPRINT_AVAILABLE E = false
      ∨ (∃ e, render_attempt E (cleaned_html_of E text) url
                (pdf_path_of E output_dir url text) = inl e)
        ∧ (is_Some (open_for_write E (html_path_of E output_dir url text))
           ∨ html_path_of E output_dir url text ∈ D)
  end.

(** the pauses in a trace *)
Definition pauses (evs : list event) : nat :=
  length (omap (λ ev, match ev with EvSleep => Some () | _ => None end) evs).

(** the URLs of a list whose page can be fetched *)
Definition reachable (E : Env) (urls : list string) : list string :=
  filter (λ u, is_Some (match requests_get E u with
                        | inr text => Some text
                        | inl _ => None
                        end)) urls.

(** [path] is a file of the directory [output_dir] itself whose name ends
    with the extension of a PDF *)
Definition pdf_of_dir (output_dir : string) (files : gmap string string)
    (path : string) : Prop :=
  is_Some (files !! path)
  ∧ ∃ stem, path = output_dir +:+ "/" +:+ stem +:+ ".pdf"
            ∧ ("/"%char ∉ list_ascii_of_string stem).

(** The conversion of [url] can raise after the fetch: the page is fetched,
    and the parser, the derivation of the filename or the check of the PDF
    path has an error. *)
Definition raises_after_fetch (E : Env) (output_dir url : string) : Prop :=
  ∃ text, requests_get E url = inr text
          ∧ (is_Some (filename_error E url text)
             ∨ is_Some (stat_error E (pdf_path_of E output_dir url text))).

Module Demo.

(** the sample site on a machine without the renderer *)
Definition offline : Env :=
  {| requests_get := requests_get Sample.env;
     html_parser := html_parser Sample.env;
     soup_str := soup_str Sample.env;
     WEASYPRINT_AVAILABLE := false;
     render := render Sample.env;
     stat_error := stat_error Sample.env;
     open_for_write := open_for_write Sample.env |}.

(** a site on which every URL serves a page without title text *)
Definition untitled_site : Env :=
  {| requests_get := λ _, inr Sample.post_text;
     html_parser := λ _, inr Sample.untitled_doc;
     soup_str := soup_str Sample.env;
     WEASYPRINT_AVAILABLE := true;
     render := render Sample.env;
     stat_error := stat_error Sample.env;
     open_for_write := open_for_write Sample.env |}.

(** the directory after a first run on the sample site *)
Definition after_first_run : World :=
  (process_posts Sample.env "blogs" ["https://site/blog/p1.html"] tally0
     Sample.empty_world).2.

End Demo.

(** [s] neither starts nor ends with a whitespace character *)
Definition trimmed (s : string) : Prop :=
  match list_ascii_of_string s with
  | [] => True
  | c :: l => Py.is_space c = false ∧ Py.is_space (List.last l c) = false
  end.

Module Twins.

(** a site on which every URL serves the sample post *)
Definition env : Env :=
  {| requests_get := λ _, inr Sample.post_text;
     html_parser := λ _, inr Sample.titled_doc;
     soup_str := soup_str Sample.env;
     WEASYPRINT_AVAILABLE := true;
     render := render Sample.env;
     stat_error := stat_error Sample.env;
     open_for_write := open_for_write Sample.env |}.

End Twins.

(** * Properties *)

Section string_facts.

Lemma chars_take n s :
  list_ascii_of_string (Py.take n s) = take n (list_ascii_of_string s).
Proof.
  revert s. induction n as [|n IH]; intros [|c s]; simpl; try done.
  by rewrite IH.
Qed.

Lemma chars_replace a b s :
  list_ascii_of_string (Py.replace a b s) =
  (λ c, if decide (c = a) then b else c) <$> list_ascii_of_string s.
Proof.
  induction s as [|c s IH]; simpl; [done|].
  rewrite IH. f_equal.
  destruct (Ascii.eqb_spec c a); case_decide; congruence.
Qed.

Lemma chars_length s : length (list_ascii_of_string s) = String.length s.
Proof. induction s; simpl; congruence. Qed.

Lemma ascii_in_elem c cs :
  Py.ascii_in c cs = true ↔ c ∈ list_ascii_of_string cs.
Proof.
  unfold Py.ascii_in. induction cs as [|a cs IH]; simpl.
  - split; [done | by intros ?%elem_of_nil].
  - rewrite orb_true_iff, IH, elem_of_cons.
    by destruct (Ascii.eqb_spec c a); naive_solver.
Qed.

Lemma chars_sub1_remove cs s :
  list_ascii_of_string (Re.sub1 (Re.OneOf cs) "" s) =
  filter (λ c, c ∉ list_ascii_of_string cs) (list_ascii_of_string s).
Proof.
  induction s as [|c s IH]; simpl; [done|].
  destruct (Py.ascii_in c cs) eqn:Hc.
  - apply ascii_in_elem in Hc. rewrite filter_cons_False by naive_solver.
    exact IH.
  - rewrite filter_cons_True; [simpl; by rewrite IH|].
    intros Hin%ascii_in_elem. congruence.
Qed.

End string_facts.

(** C4: for every title, sanitization is exactly "strip the characters of
    the forbidden set, replace spaces with underscores, truncate to 200
    characters": the result has no forbidden character, no space, at most 200
    characters; and the title "A/B: Test?" sanitizes to "AB_Test". *)
Theorem sanitize_filename_spec :
  (∀ title,
     let out := list_ascii_of_string (sanitize_filename title) in
     out = sanitize_spec (list_ascii_of_string title)
     ∧ (∀ c, c ∈ forbidden_set → c ∉ out)
     ∧ (" "%char ∉ out)
     ∧ String.length (sanitize_filename title) ≤ 200)
  ∧ sanitize_filename "A/B: Test?" = "AB_Test".
Proof.
  split; [|reflexivity].
  intros title out.
  assert (Hout : out = sanitize_spec (list_ascii_of_string title)).
  { unfold out, sanitize_filename, sanitize_spec.
    by rewrite chars_take, chars_replace, chars_sub1_remove. }
  split; [exact Hout|].
  split; [|split].
  - intros c Hc Hin. rewrite Hout in Hin. unfold sanitize_spec in Hin.
    apply elem_of_take in Hin as (i & Hin & _).
    apply list_elem_of_lookup_2 in Hin.
    apply list_elem_of_fmap in Hin as (c' & -> & Hc').
    apply list_elem_of_filter in Hc' as [Hc' _].
    case_decide; subst.
    + set_solver.
    + done.
  - intros Hin. rewrite Hout in Hin. unfold sanitize_spec in Hin.
    apply elem_of_take in Hin as (i & Hin & _).
    apply list_elem_of_lookup_2 in Hin.
    apply list_elem_of_fmap in Hin as (c' & Heq & _).
    case_decide; [discriminate | congruence].
  - rewrite <- chars_length. fold out. rewrite Hout. unfold sanitize_spec.
    rewrite length_take. lia.
Qed.

(** ** Date extraction *)

Section regex_facts.

Lemma match_here_cons k pat c s :
  Re.match_here (k :: pat) (String c s) =
  if Re.cmatch k c then String c <$> Re.match_here pat s else None.
Proof. done. Qed.

Lemma search_unfold pat s :
  Re.search pat s =
  match Re.match_here pat s with
  | Some m => Some m
  | None => match s with String _ s' => Re.search pat s' | "" => None end
  end.
Proof. by destruct s. Qed.

(** [search] returns the match at the least index that has one. *)
Lemma search_Some pat s m :
  Re.search pat s = Some m →
  ∃ i, Re.match_here pat (Py.drop i s) = Some m
       ∧ ∀ j, j < i → Re.match_here pat (Py.drop j s) = None.
Proof.
  induction s as [|c s IH]; rewrite search_unfold.
  - destruct (Re.match_here pat "") eqn:Hm; [|done].
    intros [= ->]. exists 0. split; [done | lia].
  - destruct (Re.match_here pat (String c s)) eqn:Hm.
    + intros [= ->]. exists 0. split; [done | lia].
    + intros (i & Hi & Hlt)%IH. exists (S i). split; [done|].
      intros [|j] ?; [done|]. apply Hlt. lia.
Qed.


Lemma date_string y m d :
  "/" +:+ y +:+ "/" +:+ m +:+ "/" +:+ d +:+ "/" =
  String "/" (y +:+ String "/" (m +:+ String "/" (d +:+ String "/" ""))).
Proof. done. Qed.

Ltac step_match H :=
  rewrite match_here_cons in H;
  let E := fresh "E" in
  destruct (Re.cmatch _ _) eqn:E in H; [|discriminate H].

(** A match of the date pattern is a date segment, and its groups are the
    three runs of digits. *)
Lemma match_date_pattern s mt :
  Re.match_here date_pattern s = Some mt →
  ∃ y m d, digits 4 y ∧ digits 2 m ∧ digits 2 d
           ∧ mt = "/" +:+ y +:+ "/" +:+ m +:+ "/" +:+ d +:+ "/"
           ∧ Py.startswith s mt = true
           ∧ date_groups mt = (y, m, d).
Proof.
  unfold date_pattern. intros H.
  do 12 (destruct s as [|? s]; [by repeat step_match H|]; step_match H).
  simpl in H. injection H as <-.
  simpl in *.
  repeat match goal with
         | H : Ascii.eqb _ _ = true |- _ => apply Ascii.eqb_eq in H; subst
         end.
  match goal with
  | |- ∃ y m d, _ ∧ _ ∧ _ ∧ ?mt = _ ∧ _ =>
      exists (Py.take 4 (Py.drop 1 mt)), (Py.take 2 (Py.drop 6 mt)),
             (Py.take 2 (Py.drop 9 mt))
  end.
  unfold digits, Py.all_chars; simpl.
  rewrite !Ascii.eqb_refl; simpl.
  repeat match goal with H : _ = true |- _ => rewrite H; clear H end.
  repeat split; try done.
  by destruct s.
Qed.




Lemma append_cons c p s : String c p +:+ s = String c (p +:+ s).
Proof. done. Qed.





End regex_facts.





(** ** Title extraction *)

Lemma has_name_single name n :
  Bs4.has_name [name] n = true ↔ Bs4.tag_name n = Some name.
Proof.
  destruct n as [nm ? ?| |]; simpl; [|done..].
  rewrite orb_false_r. destruct (String.eqb_spec nm name); naive_solver.
Qed.

Lemma first_element_find name soup r :
  first_element name soup r → Bs4.find name soup = r.
Proof.
  unfold Bs4.find, Bs4.find_all, first_element.
  generalize (Bs4.descendants soup) as ds.
  destruct r as [n|]; simpl.
  - intros ds (before & after & -> & Hn & Hbefore).
    induction before as [|x before IH]; simpl.
    + rewrite filter_cons_True; [done | by apply has_name_single].
    + rewrite filter_cons_False.
      * apply IH. intros y Hy. apply Hbefore. by right.
      * rewrite has_name_single. apply Hbefore. by left.
  - induction ds as [|x ds IH]; intros Hall; [done|].
    rewrite filter_cons_False.
    + apply IH. intros y Hy. apply Hall. by right.
    + rewrite has_name_single. apply Hall. by left.
Qed.

(** [find] meets the specification of the first element, so the premises of
    the statement below hold for the results of [find] in every document. *)
Lemma find_first_element name soup :
  first_element name soup (Bs4.find name soup).
Proof.
  unfold Bs4.find, Bs4.find_all, first_element.
  generalize (Bs4.descendants soup) as ds.
  induction ds as [|x ds IH]; [by intros ? ?%elem_of_nil|].
  destruct (decide (Bs4.has_name [name] x = true)) as [Hx|Hx].
  - rewrite filter_cons_True by done. simpl.
    exists [], ds. split; [done|]. split; [by apply has_name_single|].
    by intros ? ?%elem_of_nil.
  - rewrite filter_cons_False by done.
    assert (Bs4.tag_name x ≠ Some name) as Hx' by by rewrite <- has_name_single.
    destruct (head (filter _ ds)) as [n|] eqn:Hhead.
    + destruct IH as (before & after & -> & Hn & Hbefore).
      exists (x :: before), after. split; [done|]. split; [done|].
      intros y [->|Hy]%elem_of_cons; [done | by apply Hbefore].
    + intros y [->|Hy]%elem_of_cons; [done | by apply IH].
Qed.

(** C6: the title is the text, stripped of the whitespace around it, of the
    first h1 element; when the document has no h1, of the title element; when
    it has neither, of the first h2; when it has none of these, of the first
    h3; and "untitled" when the document has none of the four. *)
Theorem get_blog_title_order (soup : Bs4.soup) (h1 ti h2 h3 : option Bs4.node) :
  first_element "h1" soup h1 →
  first_element "title" soup ti →
  first_element "h2" soup h2 →
  first_element "h3" soup h3 →
  get_blog_title soup =
  match h1, ti, h2, h3 with
  | Some n, _, _, _ => element_text n
  | None, Some n, _, _ => element_text n
  | None, None, Some n, _ => element_text n
  | None, None, None, Some n => element_text n
  | None, None, None, None => "untitled"
  end.
Proof.
  intros H1%first_element_find Ht%first_element_find
         H2%first_element_find H3%first_element_find.
  unfold get_blog_title, first_heading. rewrite H1, Ht, H2, H3.
  by destruct h1, ti, h2, h3.
Qed.

(** A document without h1 takes the text of its title
    element, although it has an h2. *)
Lemma get_blog_title_order_witness :
  get_blog_title Sample.titled_doc = "My Blog".
Proof.
  rewrite (get_blog_title_order Sample.titled_doc
             None
             (Some (Bs4.Tag "title" ∅ [Bs4.NavigableString "  My Blog "]))
             (Some (Bs4.Tag "h2" ∅ [Bs4.NavigableString "Part one"]))
             None).
  - reflexivity.
  - intros x Hx. cbn in Hx.
    repeat (apply elem_of_cons in Hx as [->|Hx]; [discriminate|]).
    by apply elem_of_nil in Hx.
  - eexists [_; _], _. split; [reflexivity|]. split; [reflexivity|].
    intros x Hx.
    repeat (apply elem_of_cons in Hx as [->|Hx]; [discriminate|]).
    by apply elem_of_nil in Hx.
  - eexists [_; _; _; _; _; _; _], _. split; [reflexivity|]. split; [reflexivity|].
    intros x Hx.
    repeat (apply elem_of_cons in Hx as [->|Hx]; [discriminate|]).
    by apply elem_of_nil in Hx.
  - intros x Hx. cbn in Hx.
    repeat (apply elem_of_cons in Hx as [->|Hx]; [discriminate|]).
    by apply elem_of_nil in Hx.
Defined.

(** ** The library calls that can raise *)

Section library_calls.

(** [urlsplit] returns the five parts or raises its one error. *)
Lemma urlsplit_cases url default :
  Url.urlsplit url default = inr (Url.split_parts url default)
  ∨ Url.urlsplit url default = inl (Exception "Invalid IPv6 URL").
Proof.
  unfold Url.urlsplit, Url.split_parts.
  destruct (Url.split_scheme default _) as [sch u].
  destruct (Url.split_netloc u) as [net u'].
  destruct (Url.invalid_ipv6 net); [by right|]. left.
  destruct (match Py.partition "#" u' with Some p => p | None => (u', "") end)
    as [u'' frag].
  by destruct (match Py.partition "?" u'' with Some p => p | None => (u'', "") end).
Qed.

Lemma urlparse_with_cases url default :
  Url.urlparse_with url default = inr (Url.with_params (Url.split_parts url default))
  ∨ Url.urlparse_with url default = inl (Exception "Invalid IPv6 URL").
Proof.
  unfold Url.urlparse_with.
  destruct (urlsplit_cases url default) as [-> | ->]; [by left | by right].
Qed.

(** What [urlparse] returns, when it returns. *)
Lemma urlparse_inr url p : Url.urlparse url = inr p → p = Url.parse_parts url.
Proof.
  unfold Url.urlparse, Url.parse_parts.
  destruct (urlparse_with_cases url "") as [-> | ->]; [by intros [= <-] | done].
Qed.

Lemma urlparse_inl url e :
  Url.urlparse url = inl e → e = Exception "Invalid IPv6 URL".
Proof.
  unfold Url.urlparse.
  destruct (urlparse_with_cases url "") as [-> | ->]; [done | by intros [= <-]].
Qed.


(** The filename that the converter derives, when [urlparse] returns. *)
Lemma derive_filename_inr soup url name :
  derive_filename soup url = inr name → name = post_filename soup url.
Proof.
  unfold derive_filename, post_filename, base_filename, fallback_filename.
  cbv zeta.
  destruct (Py.is_empty _ || Py.isspace _).
  - destruct (Url.urlparse url) as [e|p] eqn:Hp; [done|].
    apply urlparse_inr in Hp as ->.
    destruct (extract_date_from_url url); by intros [= <-].
  - destruct (extract_date_from_url url); by intros [= <-].
Qed.

Lemma derive_filename_inl soup url e :
  derive_filename soup url = inl e →
  Url.urlparse url = inl e
  ∧ (let t := sanitize_filename (get_blog_title soup) in
     t = "" ∨ Py.isspace t = true).
Proof.
  unfold derive_filename. cbv zeta.
  destruct (sanitize_filename (get_blog_title soup)) as [|c t] eqn:Ht.
  - cbn [Py.is_empty orb].
    destruct (Url.urlparse url) as [e'|p].
    + intros [= <-]. by split; [|left].
    + by destruct (extract_date_from_url url).
  - cbn [Py.is_empty orb].
    destruct (Py.isspace (String c t)) eqn:Hsp.
    + destruct (Url.urlparse url) as [e'|p].
      * intros [= <-]. by split; [|right].
      * by destruct (extract_date_from_url url).
    + by destruct (extract_date_from_url url).
Qed.

(** With a title the derivation does not parse the URL and returns. *)
Lemma derive_filename_titled soup url :
  let t := sanitize_filename (get_blog_title soup) in
  t ≠ "" → Py.isspace t = false →
  derive_filename soup url = inr (post_filename soup url).
Proof.
  intros t Hne Hsp.
  destruct (derive_filename soup url) as [e|name] eqn:Hd.
  - apply derive_filename_inl in Hd as [_ Ht]. cbv zeta in Ht. subst t.
    destruct Ht; congruence.
  - by apply derive_filename_inr in Hd as ->.
Qed.

(** The derivation returns whenever [urlparse] does. *)
Lemma derive_filename_parsed soup url p :
  Url.urlparse url = inr p →
  derive_filename soup url = inr (post_filename soup url).
Proof.
  intros Hp.
  destruct (derive_filename soup url) as [e|name] eqn:Hd.
  - apply derive_filename_inl in Hd as [? _]. congruence.
  - by apply derive_filename_inr in Hd as ->.
Qed.

End library_calls.

(** ** The fallback filename *)

(** C10: when the sanitized title is empty or all whitespace, the filename is
    the URL path with slashes replaced by underscores and the underscores at
    both ends stripped ("blog_post" when nothing is left), neither sanitized
    nor truncated: for the page of a post without title text, one URL that
    discovery yields gives a filename with a colon, and another a filename of
    more than 200 characters.  The path is that of [urlparse], which returns
    on both URLs. *)
Theorem fallback_filename_unsanitized :
  (∀ soup url,
     let t := sanitize_filename (get_blog_title soup) in
     t = "" ∨ Py.isspace t = true →
     base_filename soup url =
     let f := Py.strip_chars "_" (Py.replace "/" "_" (Url.path (Url.parse_parts url))) in
     if Py.is_empty f then "blog_post" else f)
  ∧ (∀ soup url parsed_url,
       let t := sanitize_filename (get_blog_title soup) in
       t = "" ∨ Py.isspace t = true →
       Url.urlparse url = inr parsed_url →
       parsed_url = Url.parse_parts url
       ∧ derive_filename soup url =
         let f := Py.strip_chars "_" (Py.replace "/" "_" (Url.path parsed_url)) in
         let f := if Py.is_empty f then "blog_post" else f in
         inr (match extract_date_from_url url with
              | Some date => date +:+ "_" +:+ f
              | None => f
              end))
  ∧ sanitize_filename (get_blog_title Sample.untitled_doc) = ""
  ∧ collect_links "https://geohot.github.io/blog/" ["/blog/a:b.html"] []
    = inr [Sample.colon_url]
  ∧ derive_filename Sample.untitled_doc Sample.colon_url = inr "blog_a:b.html"
  ∧ post_filename Sample.untitled_doc Sample.colon_url = "blog_a:b.html"
  ∧ ":"%char ∈ forbidden_set
  ∧ ":"%char ∈ list_ascii_of_string (post_filename Sample.untitled_doc Sample.colon_url)
  ∧ collect_links "https://geohot.github.io/blog/"
      ["/blog/" +:+ Sample.repeat_string 25 "0123456789" +:+ ".html"] []
    = inr [Sample.long_url]
  ∧ derive_filename Sample.untitled_doc Sample.long_url
    = inr (post_filename Sample.untitled_doc Sample.long_url)
  ∧ String.length (post_filename Sample.untitled_doc Sample.long_url) = 260.
Proof.
  split.
  { intros soup url t Ht. unfold base_filename. fold t.
    destruct Ht as [-> | ->]; [done|]. by rewrite orb_true_r. }
  split.
  { intros soup url parsed_url t Ht Hp.
    split; [by apply urlparse_inr|].
    unfold derive_filename. fold t. cbv zeta.
    assert (Py.is_empty t || Py.isspace t = true) as ->.
    { destruct Ht as [-> | ->]; [done | by rewrite orb_true_r]. }
    rewrite Hp. by destruct (extract_date_from_url url). }
  split; [reflexivity|]. split; [reflexivity|]. split; [reflexivity|].
  split; [reflexivity|].
  split; [by apply (list_elem_of_lookup_2 _ 2)|].
  split; [by apply ascii_in_elem|].
  split; [by vm_compute|]. split; [by vm_compute|]. by vm_compute.
Qed.

(** The fallback at the page without title text. *)
Lemma fallback_filename_unsanitized_witness :
  base_filename Sample.untitled_doc Sample.colon_url = "blog_a:b.html".
Proof.
  rewrite (proj1 fallback_filename_unsanitized Sample.untitled_doc Sample.colon_url).
  - reflexivity.
  - left. reflexivity.
Defined.

(** ** Link discovery *)

Section discovery.






Lemma sorted_unique_NoDup h blog_links : NoDup (sorted_unique h blog_links).
Proof.
  unfold sorted_unique.
  rewrite merge_sort_Permutation, (set_iter_perm h). apply NoDup_elements.
Qed.

Lemma sorted_unique_Sorted h blog_links :
  Sorted String.le (sorted_unique h blog_links).
Proof. apply (Sorted_merge_sort _). Qed.

(** The order of the result does not depend on the hash seed. *)
Lemma sorted_unique_seed h1 h2 blog_links :
  sorted_unique h1 blog_links = sorted_unique h2 blog_links.
Proof.
  apply (Sorted_unique String.le); [apply sorted_unique_Sorted..|].
  unfold sorted_unique.
  by rewrite !merge_sort_Permutation, (set_iter_perm h1), (set_iter_perm h2).
Qed.

Lemma strictly_sorted (l : list string) :
  NoDup l → Sorted String.le l →
  StronglySorted (λ a b, String.ltb a b = true) l.
Proof.
  intros Hnd Hs%(Sorted_StronglySorted _).
  induction Hs as [|a l Hs IH Hall]; [constructor|].
  apply NoDup_cons in Hnd as [Ha Hnd].
  constructor; [by apply IH|].
  apply Forall_forall. intros b Hb.
  rewrite Forall_forall in Hall. specialize (Hall b Hb).
  unfold String.le, String.leb in Hall. unfold String.ltb.
  destruct (String.compare a b) eqn:Hc; [|done..].
  apply String.compare_eq_iff in Hc as ->. done.
Qed.



(** The result does not depend on the hash seed. *)
Lemma blog_links_of_seed h1 h2 base_url soup :
  blog_links_of h1 base_url soup = blog_links_of h2 base_url soup.
Proof.
  unfold blog_links_of.
  destruct (collect_links base_url (anchor_hrefs soup) []); [done|].
  f_equal. apply sorted_unique_seed.
Qed.

Lemma get_blog_posts_run E h base_url w :
  get_blog_posts E h base_url w =
  (match requests_get E base_url with
   | inl e => inl e
   | inr text =>
       match html_parser E text with
       | inl e => inl e
       | inr soup => blog_links_of h base_url soup
       end
   end, logged (EvGet base_url) w).
Proof.
  unfold get_blog_posts, http_get, lift, mbind, M_bind, emit, raise, mret, M_ret;
    simpl.
  destruct (requests_get E base_url) as [e|text]; [done|].
  destruct (html_parser E text) as [e|soup]; [done|].
  by destruct (blog_links_of h base_url soup).
Qed.

End discovery.



(** C8: the sequence that discovery returns has no duplicates and is sorted
    in the order of strings, strictly increasing; it is the same whatever the
    iteration order of the set, so a second run on the same page returns the
    same sequence. *)
Theorem get_blog_posts_sorted_unique E h base_url w links :
  (get_blog_posts E h base_url w).1 = inr links →
  NoDup links
  ∧ Sorted String.le links
  ∧ StronglySorted (λ a b, String.ltb a b = true) links
  ∧ ∀ h' w', (get_blog_posts E h' base_url w').1 = inr links.
Proof.
  rewrite get_blog_posts_run. cbn [fst].
  destruct (requests_get E base_url) as [e|text] eqn:Hget; [done|].
  destruct (html_parser E text) as [e|soup] eqn:Hparse; [done|].
  intros Hlinks.
  assert (∃ blog_links, links = sorted_unique h blog_links) as [blog_links ->].
  { unfold blog_links_of in Hlinks.
    destruct (collect_links base_url (anchor_hrefs soup) []) as [e|blog_links];
      [done|].
    exists blog_links. by injection Hlinks as <-. }
  split; [apply sorted_unique_NoDup|].
  split; [apply sorted_unique_Sorted|].
  split; [apply strictly_sorted; [apply sorted_unique_NoDup|apply sorted_unique_Sorted]|].
  intros h' w'. rewrite get_blog_posts_run, Hget, Hparse. cbn [fst].
  by rewrite (blog_links_of_seed h' h).
Qed.

(** The sample index page: the result is the same for every seed. *)
Lemma get_blog_posts_sorted_unique_witness :
  NoDup ["https://site/blog/p1.html"]
  ∧ Sorted String.le ["https://site/blog/p1.html"]
  ∧ StronglySorted (λ a b, String.ltb a b = true) ["https://site/blog/p1.html"]
  ∧ ∀ h' w',
      (get_blog_posts Sample.env h' "https://site/blog/" w').1
      = inr ["https://site/blog/p1.html"].
Proof.
  apply (get_blog_posts_sorted_unique Sample.env Sample.seed "https://site/blog/"
           Sample.empty_world).
  by vm_compute.
Defined.

(** ** The converter *)

Section converter.

Context (E : Env) (output_dir : string).

(** The outcome and the final world of one conversion, by cases. *)
Lemma convert_run url w :
  download_and_convert_to_pdf E url output_dir w =
  let w1 := logged (EvGet url) w in
  match requests_get E url with
  | inl e => (inl e, w1)
  | inr text =>
      match filename_error E url text with
      | Some e => (inl e, w1)
      | None =>
          let pdf_path := pdf_path_of E output_dir url text in
          let html_path := html_path_of E output_dir url text in
          if bool_decide (is_Some (fs w !! pdf_path)) then (inr existing, w1)
          else
            match stat_error E pdf_path with
            | Some e => (inl e, w1)
            | None =>
                if WEASYPRINT_AVAILABLE E then
                  let html := cleaned_html_of E text in
                  let w2 := logged (EvRender html url) w1 in
                  match render_attempt E html url pdf_path with
                  | inr pdf =>
                      (inr success,
                       logged (EvWrite pdf_path pdf) (stored pdf_path pdf w2))
                  | inl e =>
                      let w3 := recorded (url, str_exn e) w2 in
                      match open_for_write E html_path with
                      | None =>
                          (inr error,
                           logged (EvWrite html_path text)
                             (stored html_path text w3))
                      | Some _ => (inr error, w3)
                      end
                  end
                else (inr error, recorded (url, "weasyprint not installed") w1)
            end
      end
  end.
Proof.
  unfold download_and_convert_to_pdf, http_get, lift, write_pdf, write_file,
    try_except, path_exists, failed_urls_append, emit, raise,
    render_attempt, filename_error, pdf_path_of, html_path_of, cleaned_html_of,
    soup_of, mbind, M_bind, mret, M_ret.
  cbn [fs logged].
  destruct (requests_get E url) as [e|text]; [done|]. cbv beta iota zeta.
  destruct (html_parser E text) as [e|soup]; [done|]. cbv beta iota zeta.
  destruct (derive_filename soup url) as [e|filename] eqn:Hd; [done|].
  apply derive_filename_inr in Hd as ->. cbv beta iota zeta. cbn [fs logged].
  case_bool_decide; [done|].
  destruct (stat_error E _); [done|]. cbv beta iota zeta.
  destruct (WEASYPRINT_AVAILABLE E); [|done]. cbn [negb]. cbv beta iota zeta.
  destruct (render E _ url) as [e|pdf]; cbv beta iota zeta.
  - by destruct (open_for_write E (path_join output_dir (_ +:+ ".html"))).
  - destruct (open_for_write E (path_join output_dir (_ +:+ ".pdf"))); [|done].
    by destruct (open_for_write E (path_join output_dir (_ +:+ ".html"))).
Qed.

End converter.

Section paths.

Lemma length_append a b :
  String.length (a +:+ b) = String.length a + String.length b.
Proof. induction a as [|c a IH]; simpl; [done | by rewrite IH]. Qed.

Lemma append_assoc a b c : (a +:+ b) +:+ c = a +:+ b +:+ c.
Proof. induction a as [|x a IH]; [done | by rewrite !append_cons, IH]. Qed.

Lemma endswith_cons c s suf :
  Py.endswith (String c s) suf
  = String.eqb (String c s) suf || Py.endswith s suf.
Proof. done. Qed.

Lemma endswith_html_pdf a : Py.endswith (a +:+ ".html") ".pdf" = false.
Proof.
  induction a as [|c a IH]; [done|].
  rewrite append_cons, endswith_cons, IH, orb_false_r.
  apply String.eqb_neq. intros Heq.
  apply (f_equal String.length) in Heq. simpl in Heq.
  rewrite length_append in Heq. simpl in Heq. lia.
Qed.

(** The backup of a post is never a file with the extension of a PDF. *)
Lemma html_path_not_pdf E output_dir url text :
  Py.endswith (html_path_of E output_dir url text) ".pdf" = false.
Proof.
  unfold html_path_of, path_join.
  rewrite <- !append_assoc. apply endswith_html_pdf.
Qed.

Lemma events_since_app w evs fs' failed' :
  events_since w {| fs := fs'; failed_urls := failed'; trace := trace w ++ evs |}
  = evs.
Proof. unfold events_since. simpl. by rewrite drop_app_length. Qed.

End paths.

Ltac trace_events :=
  unfold logged, stored, recorded; simpl;
  rewrite <- ?app_assoc; rewrite ?events_since_app; simpl.

(** C2: when the PDF path computed for a post is already in the output
    directory, the converter returns [existing] having only fetched the page:
    the renderer is not called, no file is written and the directory and the
    failure list are as before.  In every run on one post at most one file is
    written, either the PDF, at a path that was absent, or the HTML backup;
    a file that exists with the extension of a PDF is left as it was. *)
Theorem skip_existing_pdf :
  (∀ E output_dir url w text,
     requests_get E url = inr text →
     filename_error E url text = None →
     is_Some (fs w !! pdf_path_of E output_dir url text) →
     let run := download_and_convert_to_pdf E url output_dir w in
     run = (inr existing, logged (EvGet url) w)
     ∧ fs run.2 = fs w
     ∧ failed_urls run.2 = failed_urls w
     ∧ rendered (events_since w run.2) = []
     ∧ written (events_since w run.2) = [])
  ∧ (∀ E output_dir url w,
       let run := download_and_convert_to_pdf E url output_dir w in
       let writes := written (events_since w run.2) in
       length writes ≤ 1
       ∧ fs run.2 = foldl (λ m pc, <[pc.1 := pc.2]> m) (fs w) writes
       ∧ (∀ p c, (p, c) ∈ writes →
            ∃ text, requests_get E url = inr text
                    ∧ ((p = pdf_path_of E output_dir url text ∧ fs w !! p = None)
                       ∨ (p = html_path_of E output_dir url text ∧ c = text)))
       ∧ (∀ p, Py.endswith p ".pdf" = true → is_Some (fs w !! p) →
               fs run.2 !! p = fs w !! p)).
Proof.
  split.
  - intros E output_dir url w text Hget Hname Hex run. subst run.
    rewrite convert_run, Hget, Hname. simpl.
    rewrite bool_decide_eq_true_2 by done. simpl.
    repeat split; by trace_events.
  - intros E output_dir url w run writes. subst run writes.
    rewrite convert_run. simpl.
    destruct (requests_get E url) as [e|text] eqn:Hget.
    { trace_events. repeat split; [lia | by intros ?? ?%elem_of_nil]. }
    destruct (filename_error E url text).
    { trace_events. repeat split; [lia | by intros ?? ?%elem_of_nil]. }
    case_bool_decide as Hex.
    { trace_events. repeat split; [lia | by intros ?? ?%elem_of_nil]. }
    apply eq_None_not_Some in Hex.
    destruct (stat_error E _).
    { trace_events. repeat split; [lia | by intros ?? ?%elem_of_nil]. }
    destruct (WEASYPRINT_AVAILABLE E).
    2:{ trace_events. repeat split; [lia | by intros ?? ?%elem_of_nil]. }
    destruct (render_attempt E _ url _) as [e|pdf].
    + destruct (open_for_write E _).
      { trace_events. repeat split; [lia | by intros ?? ?%elem_of_nil]. }
      trace_events. repeat split; [lia|..].
      * intros p c Hin. apply list_elem_of_singleton in Hin.
        injection Hin as -> ->. exists text. split; [done|]. by right.
      * intros p Hp _. apply lookup_insert_ne. intros <-.
        by rewrite html_path_not_pdf in Hp.
    + trace_events. repeat split; [lia|..].
      * intros p c Hin. apply list_elem_of_singleton in Hin.
        injection Hin as -> ->. exists text. split; [done|]. by left.
      * intros p _ Hsome. apply lookup_insert_ne. intros <-.
        rewrite Hex in Hsome. by destruct Hsome.
Qed.

(** The sample post when its PDF is in the directory. *)
Lemma skip_existing_pdf_witness :
  let w := {| fs := {[ "blogs/My_Blog.pdf" := "old" ]}; failed_urls := [];
              trace := [] |} in
  let run := download_and_convert_to_pdf Sample.env "https://site/blog/p1.html"
               "blogs" w in
  run = (inr existing, logged (EvGet "https://site/blog/p1.html") w)
  ∧ fs run.2 = fs w
  ∧ failed_urls run.2 = failed_urls w
  ∧ rendered (events_since w run.2) = []
  ∧ written (events_since w run.2) = [].
Proof.
  intros w.
  apply (proj1 skip_existing_pdf Sample.env "blogs" "https://site/blog/p1.html" w
           Sample.post_text).
  - reflexivity.
  - reflexivity.
  - change (pdf_path_of Sample.env "blogs" "https://site/blog/p1.html" Sample.post_text)
      with "blogs/My_Blog.pdf".
    exists "old". apply lookup_singleton_eq.
Defined.

(** C7: when the rendering raises, for a post that was fetched and named and
    whose PDF the check has found absent, the converter returns [error], the
    failure list gains the pair of the URL and the message of the error, and
    the text that was fetched, not the cleaned markup that went to the
    renderer, is written to the path with the base name of the PDF and the
    extension html; when that path cannot be written nothing is written and
    the outcome is the same. *)
Theorem render_failure_backup E output_dir url w text e :
  requests_get E url = inr text →
  filename_error E url text = None →
  checked_absent E w (pdf_path_of E output_dir url text) →
  WEASYPRINT_AVAILABLE E = true →
  render_attempt E (cleaned_html_of E text) url (pdf_path_of E output_dir url text)
  = inl e →
  let run := download_and_convert_to_pdf E url output_dir w in
  let html_path := html_path_of E output_dir url text in
  run.1 = inr error
  ∧ failed_urls run.2 = failed_urls w ++ [(url, str_exn e)]
  ∧ rendered (events_since w run.2) = [(cleaned_html_of E text, url)]
  ∧ (∃ base, pdf_path_of E output_dir url text = base +:+ ".pdf"
             ∧ html_path = base +:+ ".html")
  ∧ match open_for_write E html_path with
    | None =>
        fs run.2 = <[html_path := text]> (fs w)
        ∧ written (events_since w run.2) = [(html_path, text)]
    | Some _ =>
        fs run.2 = fs w ∧ written (events_since w run.2) = []
    end.
Proof.
  intros Hget Hname [Hex Hstat] Hweasy Hraise run html_path. subst run html_path.
  rewrite convert_run, Hget, Hname. simpl.
  rewrite bool_decide_eq_false_2 by (rewrite Hex; by intros [??]).
  rewrite Hstat, Hweasy, Hraise.
  assert (∃ base, pdf_path_of E output_dir url text = base +:+ ".pdf"
                  ∧ html_path_of E output_dir url text = base +:+ ".html") as Hbase.
  { exists (output_dir +:+ "/" +:+ post_filename (soup_of E text) url).
    unfold pdf_path_of, html_path_of, path_join. by rewrite !append_assoc. }
  destruct (open_for_write E (html_path_of E output_dir url text)); by trace_events.
Qed.

(** The sample post with a renderer that raises: the backup holds the
    page as fetched, which is not the markup given to the renderer. *)
Lemma render_failure_backup_witness :
  let E := Sample.site (λ _ _, inl (Exception "render failed")) (λ _, None) in
  let w := Sample.empty_world in
  let run := download_and_convert_to_pdf E "https://site/blog/p1.html" "blogs" w in
  run.1 = inr error
  ∧ failed_urls run.2 = [("https://site/blog/p1.html", "render failed")]
  ∧ rendered (events_since w run.2)
    = [("<html>cleaned</html>", "https://site/blog/p1.html")]
  ∧ (∃ base, "blogs/My_Blog.pdf" = base +:+ ".pdf"
             ∧ "blogs/My_Blog.html" = base +:+ ".html")
  ∧ fs run.2 = <[ "blogs/My_Blog.html" := "<html>post</html>" ]> ∅
  ∧ written (events_since w run.2) = [("blogs/My_Blog.html", "<html>post</html>")].
Proof.
  intros E w.
  apply (render_failure_backup E "blogs" "https://site/blog/p1.html" w
           Sample.post_text (Exception "render failed"));
    first [reflexivity | by split].
Defined.

(** ** The loop of main *)

Section main_loop.

Context (E : Env) (output_dir : string).

(** One iteration: an exception is counted and recorded, a returned
    result is counted and followed by the pause. *)
Lemma process_post_run url t w :
  process_post E output_dir url t w =
  match download_and_convert_to_pdf E url output_dir w with
  | (inl e, w') => (inr (count_error t), recorded (url, str_exn e) w')
  | (inr success, w') =>
      (inr {| new_count := new_count t + 1; existing_count := existing_count t;
              error_count := error_count t |}, logged EvSleep w')
  | (inr existing, w') =>
      (inr {| new_count := new_count t; existing_count := existing_count t + 1;
              error_count := error_count t |}, logged EvSleep w')
  | (inr error, w') => (inr (count_error t), logged EvSleep w')
  end.
Proof.
  unfold process_post, try_except, mbind, M_bind, mret, M_ret, emit,
    failed_urls_append.
  by destruct (download_and_convert_to_pdf E url output_dir w) as [[e|[]] w'].
Qed.

Ltac step_case url :=
  eexists _, _, _; split; [reflexivity|];
  unfold logged, stored, recorded, processed; simpl;
  rewrite <- ?app_assoc;
  split; [reflexivity|]; split; [reflexivity|]; split; [lia|];
  first [ left; split; reflexivity
        | right; split; [reflexivity | eexists; reflexivity] ].

(** Every iteration returns, fetches its URL, counts the post once, and
    either leaves the failure list and the error count as they were or
    adds one entry for the URL and one to the count. *)
Lemma process_post_step url t w :
  ∃ t' w' evs,
    process_post E output_dir url t w = (inr t', w')
    ∧ trace w' = trace w ++ evs
    ∧ fetched evs = [url]
    ∧ processed t' = processed t + 1
    ∧ ((error_count t' = error_count t ∧ failed_urls w' = failed_urls w)
       ∨ (error_count t' = error_count t + 1
          ∧ ∃ msg, failed_urls w' = failed_urls w ++ [(url, msg)])).
Proof.
  rewrite process_post_run, convert_run. simpl.
  destruct (requests_get E url) as [e|text]; [step_case url|].
  destruct (filename_error E url text); [step_case url|].
  case_bool_decide; [step_case url|].
  destruct (stat_error E _); [step_case url|].
  destruct (WEASYPRINT_AVAILABLE E); [|step_case url].
  destruct (render_attempt E _ url _) as [e|pdf]; [|step_case url].
  destruct (open_for_write E _); step_case url.
Qed.

Lemma process_posts_app pre post t w :
  process_posts E output_dir (pre ++ post) t w =
  match process_posts E output_dir pre t w with
  | (inr t', w') => process_posts E output_dir post t' w'
  | (inl e, w') => (inl e, w')
  end.
Proof.
  revert t w. induction pre as [|url pre IH]; intros t w; [done|].
  simpl. unfold mbind, M_bind.
  destruct (process_post E output_dir url t w) as [[e|t'] w']; [done|].
  apply IH.
Qed.

(** The loop returns for every sequence: it fetches every URL, in order,
    counts every post once, and the error count grows with the failure
    list, whose entries are kept. *)
Lemma process_posts_steps urls t w :
  ∃ t' w' evs more,
    process_posts E output_dir urls t w = (inr t', w')
    ∧ trace w' = trace w ++ evs
    ∧ fetched evs = urls
    ∧ processed t' = processed t + length urls
    ∧ failed_urls w' = failed_urls w ++ more
    ∧ error_count t' = error_count t + length more.
Proof.
  revert t w. induction urls as [|url urls IH]; intros t w.
  { exists t, w, [], []. rewrite !app_nil_r. simpl. repeat split; lia. }
  destruct (process_post_step url t w)
    as (t1 & w1 & evs1 & Hrun1 & Htr1 & Hf1 & Hp1 & Hcount1).
  destruct (IH t1 w1) as (t2 & w2 & evs2 & more2 & Hrun2 & Htr2 & Hf2 & Hp2 & Hfl2 & He2).
  assert (∃ more1, failed_urls w1 = failed_urls w ++ more1
                   ∧ error_count t1 = error_count t + length more1)
    as (more1 & Hfl1 & He1).
  { destruct Hcount1 as [[-> ->]|[-> [msg ->]]].
    - exists []. rewrite app_nil_r. simpl. split; [done | lia].
    - exists [(url, msg)]. by split. }
  exists t2, w2, (evs1 ++ evs2), (more1 ++ more2).
  simpl. unfold mbind, M_bind. rewrite Hrun1.
  split; [done|].
  split; [by rewrite Htr2, Htr1, app_assoc|].
  split; [unfold fetched in *; by rewrite omap_app, Hf1, Hf2|].
  split; [simpl; lia|].
  split; [by rewrite Hfl2, Hfl1, app_assoc|].
  rewrite length_app. lia.
Qed.

End main_loop.

(** C3: when the conversion of one URL of the sequence raises, the loop
    catches the exception, adds one to the error count, appends the pair of
    that URL and the message to the failure list, and goes on with the URLs
    that follow: the loop returns, every URL of the sequence has been fetched,
    in order, and the pair is in the final failure list. *)
Theorem failure_isolation E output_dir pre url post t w t1 w1 e w2 :
  process_posts E output_dir pre t w = (inr t1, w1) →
  download_and_convert_to_pdf E url output_dir w1 = (inl e, w2) →
  fs w2 = fs w1 ∧ failed_urls w2 = failed_urls w1
  ∧ process_post E output_dir url t1 w1
    = (inr (count_error t1), recorded (url, str_exn e) w2)
  ∧ error_count (count_error t1) = error_count t1 + 1
  ∧ failed_urls (recorded (url, str_exn e) w2) = failed_urls w1 ++ [(url, str_exn e)]
  ∧ process_posts E output_dir (pre ++ url :: post) t w
    = process_posts E output_dir post (count_error t1) (recorded (url, str_exn e) w2)
  ∧ ∃ t' w',
      process_posts E output_dir (pre ++ url :: post) t w = (inr t', w')
      ∧ fetched (events_since w w') = pre ++ url :: post
      ∧ (url, str_exn e) ∈ failed_urls w'.
Proof.
  intros Hpre Hraise.
  assert (fs w2 = fs w1 ∧ failed_urls w2 = failed_urls w1) as [Hfs Hfl].
  { rewrite convert_run in Hraise. simpl in Hraise.
    destruct (requests_get E url) as [e'|text]; [by injection Hraise as <- <-|].
    destruct (filename_error E url text); [by injection Hraise as <- <-|].
    case_bool_decide; [done|].
    destruct (stat_error E _); [by injection Hraise as <- <-|].
    destruct (WEASYPRINT_AVAILABLE E); [|done].
    destruct (render_attempt E _ url _); [|done].
    by destruct (open_for_write E _). }
  assert (process_post E output_dir url t1 w1
          = (inr (count_error t1), recorded (url, str_exn e) w2)) as Hstep.
  { by rewrite process_post_run, Hraise. }
  assert (process_posts E output_dir (pre ++ url :: post) t w
          = process_posts E output_dir post (count_error t1)
              (recorded (url, str_exn e) w2)) as Hgo.
  { rewrite process_posts_app, Hpre. simpl. unfold mbind, M_bind.
    by rewrite Hstep. }
  split; [done|]. split; [done|]. split; [done|]. split; [done|].
  split; [simpl; by rewrite Hfl|]. split; [done|].
  destruct (process_posts_steps E output_dir (pre ++ url :: post) t w)
    as (t' & w' & evs & more & Hrun & Htr & Hfetched & _).
  exists t', w'. split; [done|].
  split.
  { unfold events_since. by rewrite Htr, drop_app_length. }
  rewrite Hgo in Hrun.
  destruct (process_posts_steps E output_dir post (count_error t1)
              (recorded (url, str_exn e) w2))
    as (t'' & w'' & _ & more' & Hrun' & _ & _ & _ & Hfl' & _).
  rewrite Hrun in Hrun'. injection Hrun' as -> ->.
  rewrite Hfl'. simpl. set_solver.
Qed.

(** Three URLs of the sample site, the second of which is missing. *)
Lemma failure_isolation_witness :
  let w := Sample.empty_world in
  let urls := ["https://site/blog/p1.html"; "https://site/blog/gone.html";
               "https://site/blog/p1.html"] in
  ∃ t' w',
    process_posts Sample.env "blogs" urls tally0 w = (inr t', w')
    ∧ fetched (events_since w w') = urls
    ∧ ("https://site/blog/gone.html", "404 Client Error") ∈ failed_urls w'.
Proof.
  intros w urls.
  eapply (failure_isolation Sample.env "blogs" ["https://site/blog/p1.html"]
            "https://site/blog/gone.html" ["https://site/blog/p1.html"]
            tally0 w _ _ (Exception "404 Client Error")).
  - reflexivity.
  - reflexivity.
Defined.

(** C9: after every iteration of the loop, started with the three counts at
    zero and the failure list empty, the sum of the counts is the number of
    URLs processed so far and the error count is the length of the failure
    list; one iteration either leaves both the error count and the list as
    they were or adds one to the count and one entry, for its URL, to the
    list, whether the post failed by raising or by returning [error]. *)
Theorem tally_invariant E output_dir :
  (∀ pre post files events,
     let w0 := {| fs := files; failed_urls := []; trace := events |} in
     ∃ t w,
       process_posts E output_dir pre tally0 w0 = (inr t, w)
       ∧ process_posts E output_dir (pre ++ post) tally0 w0
         = process_posts E output_dir post t w
       ∧ new_count t + existing_count t + error_count t = length pre
       ∧ error_count t = length (failed_urls w))
  ∧ (∀ url t w,
       ∃ t' w',
         process_post E output_dir url t w = (inr t', w')
         ∧ processed t' = processed t + 1
         ∧ ((error_count t' = error_count t ∧ failed_urls w' = failed_urls w)
            ∨ (error_count t' = error_count t + 1
               ∧ ∃ msg, failed_urls w' = failed_urls w ++ [(url, msg)]))).
Proof.
  split.
  - intros pre post files events w0.
    destruct (process_posts_steps E output_dir pre tally0 w0)
      as (t & w & evs & more & Hrun & _ & _ & Hp & Hfl & He).
    exists t, w. split; [done|].
    split; [by rewrite process_posts_app, Hrun|].
    split; [exact Hp|].
    rewrite Hfl, He. done.
  - intros url t w.
    destruct (process_post_step E output_dir url t w)
      as (t' & w' & evs & Hrun & _ & _ & Hp & Hcount).
    by exists t', w'.
Qed.

(** The title of the example: the slash is stripped. *)
Lemma sanitize_filename_spec_witness :
  "/"%char ∉ list_ascii_of_string (sanitize_filename "A/B: Test?").
Proof.
  destruct (proj1 sanitize_filename_spec "A/B: Test?") as (_ & Hforbidden & _).
  apply Hforbidden. by apply (list_elem_of_lookup_2 _ 4).
Defined.

(** * Further properties of the code *)

(** ** Filenames *)

Section filenames.

Lemma sanitize_chars title :
  list_ascii_of_string (sanitize_filename title)
  = sanitize_spec (list_ascii_of_string title).
Proof.
  unfold sanitize_filename, sanitize_spec.
  by rewrite chars_take, chars_replace, chars_sub1_remove.
Qed.

Lemma chars_inj s t : list_ascii_of_string s = list_ascii_of_string t → s = t.
Proof.
  intros H. rewrite <- (string_of_list_ascii_of_string s),
    <- (string_of_list_ascii_of_string t). by rewrite H.
Qed.

Lemma chars_append a b :
  list_ascii_of_string (a +:+ b) = list_ascii_of_string a ++ list_ascii_of_string b.
Proof. induction a as [|c a IH]; [done|]. rewrite append_cons. simpl. by rewrite IH. Qed.

Lemma sanitize_spec_plain l : Forall plain_char (sanitize_spec l).
Proof.
  unfold sanitize_spec. apply Forall_take, Forall_fmap, Forall_forall.
  intros c [Hc _]%list_elem_of_filter. unfold plain_char. simpl.
  case_decide; subst; [|done].
  split; [|done]. unfold forbidden_set. set_solver.
Qed.

Lemma sanitize_spec_length l : length (sanitize_spec l) ≤ 200.
Proof. unfold sanitize_spec. rewrite length_take. lia. Qed.

Lemma sanitize_spec_fix l :
  Forall plain_char l → length l ≤ 200 → sanitize_spec l = l.
Proof.
  intros Hl Hlen. unfold sanitize_spec.
  assert (filter (λ c, c ∉ forbidden_set) l = l) as ->.
  { clear Hlen. induction Hl as [|c l [Hc _] _ IH]; [done|].
    by rewrite filter_cons_True, IH. }
  assert ((λ c, if decide (c = " "%char) then "_"%char else c) <$> l = l) as ->.
  { clear Hlen. induction Hl as [|c l [_ Hc] _ IH]; [done|].
    rewrite fmap_cons, IH. by case_decide. }
  by apply take_ge.
Qed.

End filenames.

(** X1: sanitization leaves a title as it is exactly when the title has no
    forbidden character, no space and at most 200 characters; a sanitized
    title is such a title, so sanitizing twice is sanitizing once. *)
Theorem sanitize_filename_fixpoint title :
  (sanitize_filename title = title ↔ clean_title title)
  ∧ clean_title (sanitize_filename title)
  ∧ sanitize_filename (sanitize_filename title) = sanitize_filename title.
Proof.
  assert (clean_title (sanitize_filename title)) as Hclean.
  { split.
    - rewrite sanitize_chars. apply sanitize_spec_plain.
    - rewrite <- chars_length, sanitize_chars. apply sanitize_spec_length. }
  assert (∀ t, clean_title t → sanitize_filename t = t) as Hfix.
  { intros t [Hp Hl]. apply chars_inj. rewrite sanitize_chars.
    apply sanitize_spec_fix; [done | by rewrite chars_length]. }
  split; [|split; [done | by apply Hfix]].
  split; [by intros <- | apply Hfix].
Qed.

Section filename_chars.

Lemma elem_lstrip_by p s c :
  c ∈ list_ascii_of_string (Py.lstrip_by p s) → c ∈ list_ascii_of_string s.
Proof.
  induction s as [|a s IH]; [done|]. simpl.
  destruct (p a); [|done]. intros ?%IH. by right.
Qed.

Lemma elem_rstrip_by p s c :
  c ∈ list_ascii_of_string (Py.rstrip_by p s) → c ∈ list_ascii_of_string s.
Proof.
  induction s as [|a s IH]; [done|]. simpl.
  destruct (p a && Py.is_empty (Py.rstrip_by p s)); [by intros ?%elem_of_nil|].
  simpl. intros [->|?%IH]%elem_of_cons; [by left | by right].
Qed.

Lemma elem_replace old new s c :
  c ∈ list_ascii_of_string (Py.replace old new s) → c ≠ old ∨ c = new.
Proof.
  induction s as [|a s IH]; simpl; [by intros ?%elem_of_nil|].
  intros [->|?%IH]%elem_of_cons; [|done].
  destruct (Ascii.eqb_spec a old); [by right | by left].
Qed.

Lemma digit_plain c :
  Py.is_digit c = true →
  Py.ascii_in c invalid_chars = false ∧ Ascii.eqb c " " = false.
Proof. by destruct c as [[] [] [] [] [] [] [] []]. Qed.

Lemma plain_char_bool c :
  Py.ascii_in c invalid_chars = false → Ascii.eqb c " " = false → plain_char c.
Proof.
  intros Hin Hsp. split.
  - intros Hc. apply (ascii_in_elem c invalid_chars) in Hc. congruence.
  - by apply Ascii.eqb_neq.
Qed.

Lemma all_chars_Forall p s :
  Py.all_chars p s = true → Forall (λ c, p c = true) (list_ascii_of_string s).
Proof.
  unfold Py.all_chars. induction (list_ascii_of_string s) as [|c l IH]; simpl; [done|].
  intros [? ?]%andb_true_iff. constructor; auto.
Qed.

Lemma digits_plain n s : digits n s → Forall plain_char (list_ascii_of_string s).
Proof.
  intros [_ Hd%all_chars_Forall]. eapply Forall_impl; [done|].
  intros c [? ?]%digit_plain. by apply plain_char_bool.
Qed.

(** A date taken from a URL has ten characters, digits and dashes. *)
Lemma extract_date_plain url date :
  extract_date_from_url url = Some date →
  String.length date = 10 ∧ Forall plain_char (list_ascii_of_string date).
Proof.
  unfold extract_date_from_url.
  destruct (Re.search date_pattern url) as [mt|] eqn:Hs; [|done].
  apply search_Some in Hs as (i & Hi & _).
  destruct (match_date_pattern _ _ Hi) as (y & m & d & Hy & Hm & Hd & _ & _ & ->).
  intros [= <-]. split.
  - destruct Hy as [Hy _], Hm as [Hm _], Hd as [Hd _].
    rewrite !length_append, Hy, Hm, Hd. done.
  - rewrite !chars_append, !Forall_app.
    assert (Forall plain_char (list_ascii_of_string "-")) as Hdash.
    { simpl. constructor; [by apply plain_char_bool | constructor]. }
    split; [by eapply digits_plain|]. split; [done|].
    split; [by eapply digits_plain|]. split; [done|]. by eapply digits_plain.
Qed.

Lemma plain_not_slash c : plain_char c → c ≠ "/"%char.
Proof. intros [Hc _] ->. apply Hc. by apply (list_elem_of_lookup_2 _ 4). Qed.

Lemma fallback_filename_plain url :
  fallback_filename url ≠ ""
  ∧ "/"%char ∉ list_ascii_of_string (fallback_filename url).
Proof.
  unfold fallback_filename. cbv zeta.
  set (f := Py.strip_chars "_" _).
  assert ("/"%char ∉ list_ascii_of_string f) as Hf.
  { unfold f, Py.strip_chars, Py.strip_by.
    intros Hin%elem_rstrip_by%elem_lstrip_by%elem_replace. by destruct Hin. }
  destruct f as [|c s]; [|done]. simpl.
  split; [done|]. intros Hin. by apply (ascii_in_elem "/" "blog_post") in Hin.
Qed.

Lemma base_filename_cases soup url :
  let t := sanitize_filename (get_blog_title soup) in
  (t ≠ "" ∧ Py.isspace t = false ∧ base_filename soup url = t)
  ∨ ((t = "" ∨ Py.isspace t = true)
     ∧ base_filename soup url = fallback_filename url).
Proof.
  intros t. unfold base_filename. fold t.
  destruct t as [|c t'] eqn:Ht; simpl; [right; by split; [left|]|].
  destruct (Py.isspace (String c t')) eqn:Hsp; [right; by split; [right|]|].
  left. by repeat split.
Qed.

End filename_chars.

(** X2: the filename of a post is never empty and never has a slash, whatever
    the page and the URL, so the PDF and the backup are files of the output
    directory itself, named by the directory, a slash, the filename and the
    extension; the filename is the one that the converter derives from the
    parsed page whenever the derivation returns. *)
Theorem post_filename_in_output_dir E output_dir url text :
  let name := post_filename (soup_of E text) url in
  name ≠ ""
  ∧ ("/"%char ∉ list_ascii_of_string name)
  ∧ pdf_path_of E output_dir url text = output_dir +:+ "/" +:+ name +:+ ".pdf"
  ∧ html_path_of E output_dir url text = output_dir +:+ "/" +:+ name +:+ ".html"
  ∧ ∀ soup filename,
      html_parser E text = inr soup →
      derive_filename soup url = inr filename →
      filename = name.
Proof.
  intros name. subst name.
  assert (∀ soup filename,
            html_parser E text = inr soup →
            derive_filename soup url = inr filename →
            filename = post_filename (soup_of E text) url) as Hsource.
  { intros soup filename Hparse Hd. unfold soup_of. rewrite Hparse.
    by apply derive_filename_inr. }
  cut (post_filename (soup_of E text) url ≠ ""
       ∧ ("/"%char ∉ list_ascii_of_string (post_filename (soup_of E text) url))
       ∧ pdf_path_of E output_dir url text
         = output_dir +:+ "/" +:+ post_filename (soup_of E text) url +:+ ".pdf"
       ∧ html_path_of E output_dir url text
         = output_dir +:+ "/" +:+ post_filename (soup_of E text) url +:+ ".html").
  { intros (? & ? & ? & ?). done. }
  clear Hsource. set (soup := soup_of E text).
  assert (base_filename soup url ≠ ""
          ∧ "/"%char ∉ list_ascii_of_string (base_filename soup url)) as [Hne Hsl].
  { destruct (base_filename_cases soup url) as [(Ht & _ & ->)|[_ ->]].
    - split; [done|]. rewrite sanitize_chars. intros Hin.
      pose proof (sanitize_spec_plain (list_ascii_of_string (get_blog_title soup))) as Hp.
      rewrite Forall_forall in Hp. by apply (plain_not_slash _ (Hp _ Hin)).
    - apply fallback_filename_plain. }
  split; [|split; [|done]].
  - unfold post_filename. destruct (extract_date_from_url url) as [d|] eqn:Hd; [|done].
    apply extract_date_plain in Hd as [Hlen _].
    intros Heq. apply (f_equal String.length) in Heq.
    rewrite length_append, Hlen in Heq. simpl in Heq. lia.
  - unfold post_filename. destruct (extract_date_from_url url) as [d|] eqn:Hd; [|done].
    apply extract_date_plain in Hd as [_ Hp]. rewrite Forall_forall in Hp.
    rewrite !chars_append, !elem_of_app.
    intros [Hin|[Hin|Hin]]; [|by apply (ascii_in_elem "/" "_") in Hin|done].
    by apply (plain_not_slash _ (Hp _ Hin)).
Qed.



(** ** Cleaning the document *)

Section documents.

Lemma node_ind' (P : Bs4.node → Prop) :
  (∀ nm attrs cs, Forall P cs → P (Bs4.Tag nm attrs cs)) →
  (∀ t, P (Bs4.NavigableString t)) →
  (∀ t, P (Bs4.Comment t)) →
  ∀ n, P n.
Proof.
  intros HT HS HC. fix IH 1. intros [nm attrs cs|t|t]; [|apply HS|apply HC].
  apply HT. induction cs as [|c cs IHcs]; constructor; [apply IH | exact IHcs].
Qed.

Lemma prune_unfold p n :
  Bs4.prune p n =
  if p n then []
  else match n with
       | Bs4.Tag nm attrs cs => [Bs4.Tag nm attrs (flat_map (Bs4.prune p) cs)]
       | _ => [n]
       end.
Proof. by destruct n. Qed.

Lemma flat_map_Forall_ext {A B} (f g : A → list B) (P : A → Prop) l :
  Forall (λ x, f x = g x) l → flat_map f l = flat_map g l.
Proof. induction 1 as [|x l Hx _ IH]; simpl; [done | by rewrite Hx, IH]. Qed.

Lemma flat_map_flat_map {A B C} (f : A → list B) (g : B → list C) l :
  flat_map g (flat_map f l) = flat_map (λ x, flat_map g (f x)) l.
Proof.
  induction l as [|x l IH]; simpl; [done|]. by rewrite flat_map_app, IH.
Qed.

Lemma flat_map_one {A B} (f : A → list B) x : flat_map f [x] = f x.
Proof. simpl. apply app_nil_r. Qed.

(** Two removals in a row are one removal of the elements that either
    filter matches. *)
Lemma prune_prune p q n :
  label_only q →
  flat_map (Bs4.prune q) (Bs4.prune p n) = Bs4.prune (λ x, p x || q x) n.
Proof.
  intros Hq. induction n as [nm attrs cs IH|t|t] using node_ind'.
  - rewrite (prune_unfold p), (prune_unfold (λ x, p x || q x)).
    destruct (p (Bs4.Tag nm attrs cs)); [done|].
    rewrite flat_map_one, prune_unfold, orb_false_l.
    rewrite (Hq nm attrs _ cs).
    destruct (q (Bs4.Tag nm attrs cs)); [done|].
    do 2 f_equal. rewrite flat_map_flat_map.
    by apply (flat_map_Forall_ext _ _ (λ _, True)).
  - rewrite (prune_unfold p), (prune_unfold (λ x, p x || q x)).
    destruct (p _); [done|]. by rewrite flat_map_one, prune_unfold.
  - rewrite (prune_unfold p), (prune_unfold (λ x, p x || q x)).
    destruct (p _); [done|]. by rewrite flat_map_one, prune_unfold.
Qed.

Lemma decompose_all_twice p q doc :
  label_only q →
  Bs4.decompose_all q (Bs4.decompose_all p doc)
  = Bs4.decompose_all (λ x, p x || q x) doc.
Proof.
  intros Hq. unfold Bs4.decompose_all. rewrite flat_map_flat_map.
  apply (flat_map_Forall_ext _ _ (λ _, True)), Forall_forall.
  intros n _. by apply prune_prune.
Qed.

Lemma prune_ext p q n : (∀ x, p x = q x) → Bs4.prune p n = Bs4.prune q n.
Proof.
  intros Hpq. induction n as [nm attrs cs IH|t|t] using node_ind'.
  - rewrite (prune_unfold p), (prune_unfold q), Hpq.
    destruct (q _); [done|]. do 2 f_equal.
    by apply (flat_map_Forall_ext _ _ (λ _, True)).
  - by rewrite (prune_unfold p), (prune_unfold q), Hpq.
  - by rewrite (prune_unfold p), (prune_unfold q), Hpq.
Qed.

Lemma decompose_all_ext p q doc :
  (∀ x, p x = q x) → Bs4.decompose_all p doc = Bs4.decompose_all q doc.
Proof.
  intros Hpq. unfold Bs4.decompose_all.
  apply (flat_map_Forall_ext _ _ (λ _, True)), Forall_forall.
  intros n _. by apply prune_ext.
Qed.

Lemma has_name_label_only names : label_only (Bs4.has_name names).
Proof. done. Qed.

Lemma has_class_label_only c : label_only (Bs4.has_class c).
Proof. done. Qed.

Lemma is_chrome_label_only : label_only is_chrome.
Proof. done. Qed.

End documents.

Section cleaning.

Lemma has_name_footer x :
  Bs4.has_name ["header"; "nav"; "footer"] x
  = Bs4.has_name ["header"; "nav"] x || Bs4.has_name ["footer"] x.
Proof.
  destruct x as [nm ? ?| |]; [|done..]. unfold Bs4.has_name, Py.mem. simpl.
  by destruct (String.eqb nm "header"), (String.eqb nm "nav"), (String.eqb nm "footer").
Qed.

(** The removals of cleaning, one after the other, are one removal of the
    elements that [is_chrome] matches. *)
Lemma clean_removals soup :
  Bs4.decompose_all (Bs4.has_name ["footer"])
    (foldl (λ doc class_name, Bs4.decompose_all (Bs4.has_class class_name) doc)
       (Bs4.decompose_all (Bs4.has_name ["header"; "nav"]) soup) denied_classes)
  = Bs4.decompose_all is_chrome soup.
Proof.
  unfold denied_classes. cbn [foldl].
  rewrite !decompose_all_twice by done.
  apply decompose_all_ext. intros x. unfold is_chrome, denied_classes.
  rewrite has_name_footer. cbn [existsb].
  generalize (Bs4.has_name ["header"; "nav"] x) (Bs4.has_name ["footer"] x).
  repeat match goal with
         | |- context [Bs4.has_class ?c x] => generalize (Bs4.has_class c x)
         end.
  by intros [] [] [] [] [] [] [] [] [].
Qed.

Lemma elem_of_flat_map {A B} (f : A → list B) l y :
  y ∈ flat_map f l ↔ ∃ x, x ∈ l ∧ y ∈ f x.
Proof.
  induction l as [|a l IH]; simpl.
  - split; [by intros ?%elem_of_nil | by intros (? & ?%elem_of_nil & _)].
  - rewrite elem_of_app, IH. split.
    + intros [?|(x & ? & ?)]; [exists a; split; [by left|done]|].
      exists x. split; [by right|done].
    + intros (x & [->|?]%elem_of_cons & ?); [by left|]. right. by exists x.
Qed.

(** Nothing that a removal leaves is matched by its filter. *)
Lemma prune_none_left p n x :
  label_only p →
  x ∈ flat_map Bs4.self_and_descendants (Bs4.prune p n) → p x = false.
Proof.
  intros Hp. revert x. induction n as [nm attrs cs IH|t|t] using node_ind'; intros x.
  - rewrite prune_unfold. destruct (p (Bs4.Tag nm attrs cs)) eqn:Hn;
      [by intros ?%elem_of_nil|].
    rewrite flat_map_one. simpl.
    intros [->|Hx]%elem_of_cons; [by rewrite (Hp nm attrs _ cs)|].
    apply elem_of_flat_map in Hx as (c' & Hc' & Hx).
    apply elem_of_flat_map in Hc' as (c & Hc & Hc').
    rewrite Forall_forall in IH. apply (IH c Hc).
    apply elem_of_flat_map. by exists c'.
  - rewrite prune_unfold. destruct (p _) eqn:Hn; [by intros ?%elem_of_nil|].
    simpl. by intros ->%list_elem_of_singleton.
  - rewrite prune_unfold. destruct (p _) eqn:Hn; [by intros ?%elem_of_nil|].
    simpl. by intros ->%list_elem_of_singleton.
Qed.

Lemma decompose_all_none_left p doc x :
  label_only p → x ∈ Bs4.descendants (Bs4.decompose_all p doc) → p x = false.
Proof.
  intros Hp. unfold Bs4.descendants, Bs4.decompose_all.
  intros (c' & Hc' & Hx)%elem_of_flat_map.
  apply elem_of_flat_map in Hc' as (c & Hc & Hc').
  apply (prune_none_left p c x Hp), elem_of_flat_map. by exists c'.
Qed.

End cleaning.

Section appending.

Context (name : string) (child : Bs4.node).

Lemma append_in_unfold nm attrs cs :
  Bs4.append_in name child (Bs4.Tag nm attrs cs) =
  if String.eqb nm name then Some (Bs4.Tag nm attrs (cs ++ [child]))
  else Bs4.Tag nm attrs <$> Bs4.append_to_first name child cs.
Proof.
  simpl. destruct (String.eqb nm name); [done|]. f_equal.
  induction cs as [|c cs IH]; [done|]. simpl.
  destruct (Bs4.append_in name child c); [done|]. by rewrite IH.
Qed.




(** Every node of the result has the name and attributes of a node that
    was there, or is a node of the child. *)
Lemma append_in_nodes (p : Bs4.node → bool) n n' :
  label_only p →
  Bs4.append_in name child n = Some n' →
  Forall (λ x, p x = false) (Bs4.self_and_descendants n) →
  Forall (λ x, p x = false) (Bs4.self_and_descendants child) →
  Forall (λ x, p x = false) (Bs4.self_and_descendants n').
Proof.
  intros Hp. revert n'.
  induction n as [nm attrs cs IH|t|t] using node_ind'; [|done..].
  intros n'. rewrite append_in_unfold.
  destruct (String.eqb nm name).
  - intros [= <-] Hn Hc. cbn [Bs4.self_and_descendants] in *.
    apply Forall_cons in Hn as [Hn Hcs].
    constructor; [by rewrite (Hp nm attrs _ cs)|].
    rewrite flat_map_app, flat_map_one. by apply Forall_app.
  - destruct (Bs4.append_to_first name child cs) as [cs'|] eqn:Hcs'; [|done].
    intros [= <-] Hn Hc. cbn [Bs4.self_and_descendants] in *.
    apply Forall_cons in Hn as [Hn Hcs].
    constructor; [by rewrite (Hp nm attrs _ cs)|].
    clear Hn. revert cs' Hcs' Hcs.
    induction IH as [|c cs Hc1 _ IHcs]; intros cs'; [done|]. simpl.
    destruct (Bs4.append_in name child c) as [c'|] eqn:Hc'.
    + intros [= <-]. simpl. rewrite !Forall_app. intros [? ?].
      split; [by apply Hc1|done].
    + destruct (Bs4.append_to_first name child cs) as [cs0|]; [|done].
      intros [= <-]. simpl. rewrite !Forall_app. intros [? ?].
      split; [done | by apply IHcs].
Qed.

Lemma append_to_first_nodes (p : Bs4.node → bool) doc doc' :
  label_only p →
  Bs4.append_to_first name child doc = Some doc' →
  Forall (λ x, p x = false) (Bs4.descendants doc) →
  Forall (λ x, p x = false) (Bs4.self_and_descendants child) →
  Forall (λ x, p x = false) (Bs4.descendants doc').
Proof.
  intros Hp. unfold Bs4.descendants. revert doc'.
  induction doc as [|c doc IH]; intros doc'; [done|]. simpl.
  destruct (Bs4.append_in name child c) as [c'|] eqn:Hc'.
  - intros [= <-]. simpl. rewrite !Forall_app. intros [? ?] ?.
    split; [by eapply append_in_nodes|done].
  - destruct (Bs4.append_to_first name child doc) as [doc0|]; [|done].
    intros [= <-]. simpl. rewrite !Forall_app. intros [? ?] ?.
    split; [done | by apply IH].
Qed.

End appending.

Section cleaned.

Lemma clean_html_for_pdf_eq soup :
  clean_html_for_pdf soup =
  match Bs4.append_to_first "head" style_tag (Bs4.decompose_all is_chrome soup) with
  | Some soup' => soup'
  | None => Bs4.decompose_all is_chrome soup
  end.
Proof. unfold clean_html_for_pdf. cbv zeta. by rewrite clean_removals. Qed.

Lemma prune_id p n :
  Forall (λ x, p x = false) (Bs4.self_and_descendants n) → Bs4.prune p n = [n].
Proof.
  induction n as [nm attrs cs IH|t|t] using node_ind'.
  - cbn [Bs4.self_and_descendants]. intros [Hn Hcs]%Forall_cons.
    rewrite prune_unfold, Hn. do 2 f_equal.
    clear Hn. induction IH as [|c cs Hc _ IHcs]; [done|]. simpl in *.
    apply Forall_app in Hcs as [? ?]. rewrite Hc by done. simpl.
    by rewrite IHcs.
  - intros Hn. simpl in Hn. apply Forall_cons in Hn as [Hn _].
    rewrite prune_unfold, Hn. done.
  - intros Hn. simpl in Hn. apply Forall_cons in Hn as [Hn _].
    rewrite prune_unfold, Hn. done.
Qed.

Lemma decompose_all_id p doc :
  Forall (λ x, p x = false) (Bs4.descendants doc) → Bs4.decompose_all p doc = doc.
Proof.
  unfold Bs4.descendants, Bs4.decompose_all.
  induction doc as [|c doc IH]; [done|]. simpl.
  intros [? ?]%Forall_app. by rewrite prune_id, IH.
Qed.

Lemma find_None_name name doc :
  Forall (λ x, Bs4.has_name [name] x = false) (Bs4.descendants doc) →
  Bs4.find name doc = None.
Proof.
  unfold Bs4.find, Bs4.find_all.
  induction 1 as [|x l Hx _ IH]; [done|].
  rewrite filter_cons_False; [done | by rewrite Hx].
Qed.

Lemma not_chrome_names x :
  is_chrome x = false →
  Bs4.has_name ["header"] x = false ∧ Bs4.has_name ["nav"] x = false
  ∧ Bs4.has_name ["footer"] x = false
  ∧ Forall (λ c, Bs4.has_class c x = false) denied_classes.
Proof.
  unfold is_chrome. intros [Hn Hc]%orb_false_iff.
  split; [|split; [|split]].
  - destruct x as [nm ? ?| |]; [|done..]. unfold Bs4.has_name, Py.mem in *.
    simpl in *. by destruct (String.eqb nm "header").
  - destruct x as [nm ? ?| |]; [|done..]. unfold Bs4.has_name, Py.mem in *.
    simpl in *. by destruct (String.eqb nm "header"), (String.eqb nm "nav").
  - destruct x as [nm ? ?| |]; [|done..]. unfold Bs4.has_name, Py.mem in *.
    simpl in *.
    by destruct (String.eqb nm "header"), (String.eqb nm "nav"),
         (String.eqb nm "footer").
  - apply Forall_forall. intros c Hin.
    destruct (Bs4.has_class c x) eqn:Hcx; [|done].
    assert (existsb (λ c, Bs4.has_class c x) denied_classes = true) as Hex; [|congruence].
    apply existsb_exists. exists c. split; [by apply list_elem_of_In|done].
Qed.

End cleaned.

(** X4: in a cleaned document no element is named header, nav or footer and
    no element has one of the seven denied classes: [find] gives nothing for
    the three names. *)
Theorem clean_html_for_pdf_removes soup :
  Forall (λ x, is_chrome x = false
               ∧ Bs4.has_name ["header"] x = false
               ∧ Bs4.has_name ["nav"] x = false
               ∧ Bs4.has_name ["footer"] x = false
               ∧ Forall (λ c, Bs4.has_class c x = false) denied_classes)
         (Bs4.descendants (clean_html_for_pdf soup))
  ∧ Bs4.find "header" (clean_html_for_pdf soup) = None
  ∧ Bs4.find "nav" (clean_html_for_pdf soup) = None
  ∧ Bs4.find "footer" (clean_html_for_pdf soup) = None.
Proof.
  assert (Forall (λ x, is_chrome x = false)
            (Bs4.descendants (clean_html_for_pdf soup))) as Hclean.
  { rewrite clean_html_for_pdf_eq.
    assert (Forall (λ x, is_chrome x = false)
              (Bs4.descendants (Bs4.decompose_all is_chrome soup))) as Hp.
    { apply Forall_forall. intros x. by apply decompose_all_none_left. }
    destruct (Bs4.append_to_first "head" style_tag _) as [d|] eqn:Hd; [|done].
    eapply append_to_first_nodes; [apply is_chrome_label_only|done..|].
    by repeat constructor. }
  assert (Forall (λ x, is_chrome x = false
               ∧ Bs4.has_name ["header"] x = false
               ∧ Bs4.has_name ["nav"] x = false
               ∧ Bs4.has_name ["footer"] x = false
               ∧ Forall (λ c, Bs4.has_class c x = false) denied_classes)
         (Bs4.descendants (clean_html_for_pdf soup))) as Hall.
  { eapply Forall_impl; [exact Hclean|]. intros x Hx. split; [done|].
    by apply not_chrome_names. }
  split; [done|].
  repeat split; apply find_None_name; (eapply Forall_impl; [exact Hall|]);
    intros x (_ & ? & ? & ? & _); done.
Qed.


(** X6: on a document that has no header, nav or footer element and no
    element of a denied class, cleaning removes nothing: it only appends the
    style element to the first head element, if there is one. *)
Theorem clean_html_for_pdf_chrome_free soup :
  Forall (λ x, is_chrome x = false) (Bs4.descendants soup) →
  clean_html_for_pdf soup =
  match Bs4.append_to_first "head" style_tag soup with
  | Some soup' => soup'
  | None => soup
  end.
Proof.
  intros Hfree. by rewrite clean_html_for_pdf_eq, decompose_all_id.
Qed.

(** The sample page without title text has no chrome and no head. *)
Lemma clean_html_for_pdf_chrome_free_witness :
  clean_html_for_pdf Sample.untitled_doc = Sample.untitled_doc.
Proof.
  rewrite (clean_html_for_pdf_chrome_free Sample.untitled_doc).
  - reflexivity.
  - by repeat constructor.
Defined.

(** ** More on the converter *)

(** X7: without the renderer a conversion never renders and never writes a
    file, not even a backup: the directory is as before and the outcome is
    never [success]; for a post that is fetched and named and whose PDF the
    check finds absent the outcome is [error], recorded with the message
    "weasyprint not installed"; when the check raises, the conversion raises
    that error and records nothing. *)
Theorem no_renderer_no_write E output_dir url w :
  WEASYPRINT_AVAILABLE E = false →
  let run := download_and_convert_to_pdf E url output_dir w in
  rendered (events_since w run.2) = []
  ∧ written (events_since w run.2) = []
  ∧ fs run.2 = fs w
  ∧ run.1 ≠ inr success
  ∧ (∀ text,
       requests_get E url = inr text →
       filename_error E url text = None →
       checked_absent E w (pdf_path_of E output_dir url text) →
       run.1 = inr error
       ∧ failed_urls run.2 = failed_urls w ++ [(url, "weasyprint not installed")])
  ∧ (∀ text e,
       requests_get E url = inr text →
       filename_error E url text = None →
       fs w !! pdf_path_of E output_dir url text = None →
       stat_error E (pdf_path_of E output_dir url text) = Some e →
       run.1 = inl e ∧ failed_urls run.2 = failed_urls w).
Proof.
  intros Hweasy run. subst run. rewrite convert_run. cbv zeta.
  destruct (requests_get E url) as [e|text].
  { trace_events. by do 4 (split; [done|]). }
  destruct (filename_error E url text) eqn:Hname.
  { trace_events. do 4 (split; [done|]).
    split; [intros ? [= <-] ? | intros ? ? [= <-] ?]; congruence. }
  case_bool_decide as Hex.
  { trace_events. do 4 (split; [done|]). split.
    - intros ? [= <-] _ [Hnone _]. rewrite Hnone in Hex. by destruct Hex.
    - intros ? ? [= <-] _ Hnone. rewrite Hnone in Hex. by destruct Hex. }
  destruct (stat_error E _) as [e|] eqn:Hstat.
  { trace_events. do 4 (split; [done|]). split.
    - intros ? [= <-] _ [_ Hs]. congruence.
    - intros ? ? [= <-] _ _ Hs. split; [|done]. congruence. }
  rewrite Hweasy. trace_events. do 4 (split; [done|]). split.
  - by intros ? [= <-] _ _.
  - intros ? ? [= <-] _ _ Hs. congruence.
Qed.

(** The sample post on the machine without the renderer. *)
Lemma no_renderer_no_write_witness :
  let run := download_and_convert_to_pdf Demo.offline "https://site/blog/p1.html"
               "blogs" Sample.empty_world in
  rendered (events_since Sample.empty_world run.2) = []
  ∧ written (events_since Sample.empty_world run.2) = []
  ∧ fs run.2 = ∅
  ∧ run.1 ≠ inr success
  ∧ (∀ text,
       requests_get Demo.offline "https://site/blog/p1.html" = inr text →
       filename_error Demo.offline "https://site/blog/p1.html" text = None →
       checked_absent Demo.offline Sample.empty_world
         (pdf_path_of Demo.offline "blogs" "https://site/blog/p1.html" text) →
       run.1 = inr error
       ∧ failed_urls run.2
         = [] ++ [("https://site/blog/p1.html", "weasyprint not installed")])
  ∧ (∀ text e,
       requests_get Demo.offline "https://site/blog/p1.html" = inr text →
       filename_error Demo.offline "https://site/blog/p1.html" text = None →
       fs Sample.empty_world
         !! pdf_path_of Demo.offline "blogs" "https://site/blog/p1.html" text = None →
       stat_error Demo.offline
         (pdf_path_of Demo.offline "blogs" "https://site/blog/p1.html" text) = Some e →
       run.1 = inl e ∧ failed_urls run.2 = []).
Proof.
  apply (no_renderer_no_write Demo.offline "blogs" "https://site/blog/p1.html"
           Sample.empty_world).
  reflexivity.
Defined.

(** X8: a conversion that returns [success] has written the rendered bytes
    at the PDF path, which was absent, and nothing else, and has recorded no
    failure; from then on, in every directory that still has the file, the
    conversion of the same URL returns [existing] after the fetch alone. *)
Theorem success_then_existing E output_dir url w w1 :
  download_and_convert_to_pdf E url output_dir w = (inr success, w1) →
  (∃ text pdf,
     requests_get E url = inr text
     ∧ render E (cleaned_html_of E text) url = inr pdf
     ∧ fs w !! pdf_path_of E output_dir url text = None
     ∧ fs w1 = <[pdf_path_of E output_dir url text := pdf]> (fs w)
     ∧ failed_urls w1 = failed_urls w)
  ∧ ∀ w2,
      dom (fs w1) ⊆ dom (fs w2) →
      download_and_convert_to_pdf E url output_dir w2
      = (inr existing, logged (EvGet url) w2).
Proof.
  rewrite convert_run. cbv zeta.
  destruct (requests_get E url) as [e|text] eqn:Hget; [done|].
  destruct (filename_error E url text) eqn:Hname; [done|].
  case_bool_decide as Hex; [done|].
  destruct (stat_error E _); [done|].
  destruct (WEASYPRINT_AVAILABLE E); [|done].
  destruct (render_attempt E _ url _) as [e|pdf] eqn:Hr.
  { by destruct (open_for_write E _). }
  intros [= <-]. simpl.
  apply eq_None_not_Some in Hex.
  unfold render_attempt in Hr.
  destruct (render E _ url) as [e|pdf'] eqn:Hrender; [done|].
  destruct (open_for_write E _); [done|]. injection Hr as ->.
  split; [by exists text, pdf|].
  intros w2 Hsub. rewrite convert_run, Hget, Hname. cbv zeta.
  rewrite bool_decide_eq_true_2; [done|].
  apply elem_of_dom, Hsub. rewrite dom_insert. set_solver.
Qed.

(** The sample post, converted in an empty directory and then again. *)
Lemma success_then_existing_witness :
  let w1 := (download_and_convert_to_pdf Sample.env "https://site/blog/p1.html"
               "blogs" Sample.empty_world).2 in
  download_and_convert_to_pdf Sample.env "https://site/blog/p1.html" "blogs" w1
  = (inr existing, logged (EvGet "https://site/blog/p1.html") w1).
Proof.
  intros w1.
  apply (success_then_existing Sample.env "blogs" "https://site/blog/p1.html"
           Sample.empty_world w1).
  - by vm_compute.
  - done.
Defined.

(** ** Runs of the loop *)

Section runs.

Context (E : Env) (output_dir : string).

Lemma settled_mono D D' url :
  D ⊆ D' → settled E output_dir D url → settled E output_dir D' url.
Proof.
  unfold settled. intros Hsub. destruct (requests_get E url) as [e|text]; [done|].
  intros [?|[?|[?|[?|[? [?|?]]]]]];
    [by left | right; left; set_solver | by right; right; left
    | by right; right; right; left | ..];
    do 4 right; (split; [done|]); [by left | right; set_solver].
Qed.

(** An iteration never removes a file, and leaves nothing to create for its
    URL. *)
Lemma process_post_settles url t w t' w' :
  process_post E output_dir url t w = (inr t', w') →
  dom (fs w) ⊆ dom (fs w') ∧ settled E output_dir (dom (fs w')) url.
Proof.
  rewrite process_post_run, convert_run. unfold settled. cbv zeta.
  destruct (requests_get E url) as [e|text]; [by intros [= <- <-]|].
  destruct (filename_error E url text) eqn:Hname.
  { intros [= <- <-]. split; [done|]. by left. }
  case_bool_decide as Hex.
  { intros [= <- <-]. split; [done|]. right; left. by apply elem_of_dom. }
  destruct (stat_error E _) eqn:Hstat.
  { intros [= <- <-]. split; [done|]. by right; right; left. }
  destruct (WEASYPRINT_AVAILABLE E) eqn:Hweasy.
  2:{ intros [= <- <-]. split; [done|]. by right; right; right; left. }
  destruct (render_attempt E _ url _) as [e|pdf] eqn:Hr.
  - destruct (open_for_write E _) eqn:Ho; intros [= <- <-]; simpl.
    + split; [done|]. do 4 right. split; [by exists e | by left].
    + rewrite dom_insert_L. split; [set_solver|]. do 4 right.
      split; [by exists e | right; set_solver].
  - intros [= <- <-]. simpl. rewrite dom_insert_L. split; [set_solver|].
    right; left. set_solver.
Qed.

Lemma process_posts_settles urls t w t' w' :
  process_posts E output_dir urls t w = (inr t', w') →
  dom (fs w) ⊆ dom (fs w')
  ∧ Forall (settled E output_dir (dom (fs w'))) urls.
Proof.
  revert t w. induction urls as [|url urls IH]; intros t w.
  { by intros [= <- <-]. }
  simpl. unfold mbind, M_bind.
  destruct (process_post E output_dir url t w) as [[e|t1] w1] eqn:H1; [done|].
  intros H2. apply process_post_settles in H1 as [Hs1 Hset1].
  apply IH in H2 as [Hs2 Hset2].
  split; [set_solver|]. constructor; [|done].
  by apply (settled_mono (dom (fs w1))).
Qed.

(** Where nothing is left to create for its URL, an iteration creates no
    file, counts no new PDF, and leaves every PDF as it is. *)
Lemma process_post_settled D url t w :
  settled E output_dir D url →
  D ⊆ dom (fs w) →
  ∃ t' w',
    process_post E output_dir url t w = (inr t', w')
    ∧ new_count t' = new_count t
    ∧ dom (fs w') = dom (fs w)
    ∧ ∀ p, Py.endswith p ".pdf" = true → fs w' !! p = fs w !! p.
Proof.
  rewrite process_post_run, convert_run. unfold settled. cbv zeta.
  intros Hset Hsub.
  destruct (requests_get E url) as [e|text]; [by eexists _, _|].
  destruct (filename_error E url text) eqn:Hname; [by eexists _, _|].
  case_bool_decide as Hex; [by eexists _, _|].
  destruct (stat_error E _) eqn:Hstat; [by eexists _, _|].
  assert (pdf_path_of E output_dir url text ∉ D) as Hnot.
  { intros Hin. apply Hex, elem_of_dom, Hsub, Hin. }
  destruct Hset as [[? ?]|[?|[[? ?]|[Hweasy|[[e Hr] Hbackup]]]]]; [done..| |].
  { rewrite Hweasy. by eexists _, _. }
  destruct (WEASYPRINT_AVAILABLE E); [|by eexists _, _].
  rewrite Hr.
  destruct (open_for_write E _) eqn:Ho; [by eexists _, _|].
  destruct Hbackup as [[? ?]|Hin]; [done|].
  eexists _, _. split; [done|]. split; [done|]. simpl. split.
  - rewrite dom_insert_L. set_solver.
  - intros p Hp. apply lookup_insert_ne. intros <-.
    by rewrite html_path_not_pdf in Hp.
Qed.

Lemma process_posts_settled D urls t w :
  Forall (settled E output_dir D) urls →
  D ⊆ dom (fs w) →
  ∃ t' w',
    process_posts E output_dir urls t w = (inr t', w')
    ∧ new_count t' = new_count t
    ∧ dom (fs w') = dom (fs w)
    ∧ ∀ p, Py.endswith p ".pdf" = true → fs w' !! p = fs w !! p.
Proof.
  intros Hall. revert t w. induction Hall as [|url urls Hurl _ IH]; intros t w Hsub.
  { by exists t, w. }
  destruct (process_post_settled D url t w Hurl Hsub)
    as (t1 & w1 & Hrun1 & Hn1 & Hd1 & Hp1).
  destruct (IH t1 w1) as (t2 & w2 & Hrun2 & Hn2 & Hd2 & Hp2).
  { by rewrite Hd1. }
  exists t2, w2. simpl. unfold mbind, M_bind. rewrite Hrun1.
  split; [done|]. split; [congruence|]. split; [congruence|].
  intros p Hp. by rewrite Hp2, Hp1.
Qed.

End runs.

(** X9: after the loop has run over a list of URLs, a second run over the
    same list, with the same site and renderer, in a directory that still has
    the files of the first, creates no file, counts no new PDF and leaves
    every PDF as it is. *)
Theorem second_run_creates_nothing E output_dir urls t0 w0 t1 w1 t w :
  process_posts E output_dir urls t0 w0 = (inr t1, w1) →
  dom (fs w1) ⊆ dom (fs w) →
  ∃ t' w',
    process_posts E output_dir urls t w = (inr t', w')
    ∧ new_count t' = new_count t
    ∧ dom (fs w') = dom (fs w)
    ∧ ∀ p, Py.endswith p ".pdf" = true → fs w' !! p = fs w !! p.
Proof.
  intros [_ Hset]%process_posts_settles Hsub.
  by apply (process_posts_settled E output_dir (dom (fs w1))).
Qed.

(** The sample site: the second run finds the PDF of the first. *)
Lemma second_run_creates_nothing_witness :
  ∃ t' w',
    process_posts Sample.env "blogs" ["https://site/blog/p1.html"] tally0
      Demo.after_first_run = (inr t', w')
    ∧ new_count t' = new_count tally0
    ∧ dom (fs w') = dom (fs Demo.after_first_run)
    ∧ ∀ p, Py.endswith p ".pdf" = true → fs w' !! p = fs Demo.after_first_run !! p.
Proof.
  eapply (second_run_creates_nothing Sample.env "blogs" ["https://site/blog/p1.html"]
            tally0 Sample.empty_world _ Demo.after_first_run).
  - by vm_compute.
  - done.
Defined.

Section more_runs.

Context (E : Env) (output_dir : string).

Ltac pause_case :=
  eexists _, _, _; split; [reflexivity|];
  unfold logged, stored, recorded; simpl; rewrite <- ?app_assoc;
  split; [reflexivity|]; reflexivity.

(** An iteration pauses once when the conversion has returned a result and
    not at all when it has raised. *)
Lemma process_post_pauses url t w :
  ∃ t' w' evs,
    process_post E output_dir url t w = (inr t', w')
    ∧ trace w' = trace w ++ evs
    ∧ pauses evs
      = match (download_and_convert_to_pdf E url output_dir w).1 with
        | inr _ => 1
        | inl _ => 0
        end.
Proof.
  rewrite process_post_run, convert_run. unfold pauses. cbv zeta.
  destruct (requests_get E url) as [e|text]; [pause_case|].
  destruct (filename_error E url text); [pause_case|].
  case_bool_decide; [pause_case|].
  destruct (stat_error E _); [pause_case|].
  destruct (WEASYPRINT_AVAILABLE E); [|pause_case].
  destruct (render_attempt E _ url _) as [e|pdf]; [|pause_case].
  destruct (open_for_write E _); pause_case.
Qed.

(** A conversion returns a result only for a page that is fetched, and
    raises after the fetch only on an error of the parser, of the derivation
    of the filename or of the check of the PDF path. *)
Lemma convert_returns url w :
  match (download_and_convert_to_pdf E url output_dir w).1 with
  | inr _ => length (reachable E [url]) = 1
  | inl _ =>
      length (reachable E [url]) = 0
      ∨ (length (reachable E [url]) = 1 ∧ raises_after_fetch E output_dir url)
  end.
Proof.
  rewrite convert_run. unfold reachable, raises_after_fetch. cbv zeta.
  rewrite filter_cons, filter_nil.
  destruct (requests_get E url) as [e|text] eqn:Hget.
  { rewrite decide_False by (by intros [? ?]). by left. }
  rewrite decide_True by done.
  destruct (filename_error E url text) eqn:Hname.
  { right. split; [done|]. exists text. rewrite Hname. split; [done|]. by left. }
  case_bool_decide; [done|].
  destruct (stat_error E _) eqn:Hstat.
  { right. split; [done|]. exists text. rewrite Hstat. split; [done|]. by right. }
  destruct (WEASYPRINT_AVAILABLE E); [|done].
  destruct (render_attempt E _ url _) as [e|pdf]; [|done].
  by destruct (open_for_write E _).
Qed.

Lemma reachable_cons url urls :
  length (reachable E (url :: urls))
  = length (reachable E [url]) + length (reachable E urls).
Proof.
  unfold reachable. change (url :: urls) with ([url] ++ urls).
  by rewrite filter_app, length_app.
Qed.

Lemma process_posts_pauses urls t w :
  ∃ t' w' evs,
    process_posts E output_dir urls t w = (inr t', w')
    ∧ trace w' = trace w ++ evs
    ∧ pauses evs ≤ length (reachable E urls)
    ∧ (Forall (λ url, ¬ raises_after_fetch E output_dir url) urls →
       pauses evs = length (reachable E urls)).
Proof.
  revert t w. induction urls as [|url urls IH]; intros t w.
  { exists t, w, []. rewrite app_nil_r. by repeat split. }
  destruct (process_post_pauses url t w) as (t1 & w1 & evs1 & Hrun1 & Htr1 & Hp1).
  destruct (IH t1 w1) as (t2 & w2 & evs2 & Hrun2 & Htr2 & Hle2 & Heq2).
  pose proof (convert_returns url w) as Hret.
  exists t2, w2, (evs1 ++ evs2). simpl. unfold mbind, M_bind. rewrite Hrun1.
  split; [done|]. split; [by rewrite Htr2, Htr1, app_assoc|].
  assert (pauses (evs1 ++ evs2) = pauses evs1 + pauses evs2) as ->.
  { unfold pauses. by rewrite omap_app, length_app. }
  rewrite reachable_cons, Hp1.
  destruct (download_and_convert_to_pdf E url output_dir w).1 as [e|r].
  - split; [lia|]. intros [Hno Hrest]%Forall_cons.
    destruct Hret as [->|[_ ?]]; [|done]. by rewrite Heq2.
  - rewrite Hret. split; [lia|]. intros [_ Hrest]%Forall_cons. by rewrite Heq2.
Qed.

(** The entries that the loop adds to the failure list follow the order of
    the URLs, with at most one entry for each URL of the list. *)
Lemma process_posts_failures urls t w :
  ∃ t' w' more,
    process_posts E output_dir urls t w = (inr t', w')
    ∧ failed_urls w' = failed_urls w ++ more
    ∧ more.*1 `sublist_of` urls.
Proof.
  revert t w. induction urls as [|url urls IH]; intros t w.
  { exists t, w, []. by rewrite app_nil_r. }
  destruct (process_post_step E output_dir url t w)
    as (t1 & w1 & evs1 & Hrun1 & _ & _ & _ & Hcount1).
  destruct (IH t1 w1) as (t2 & w2 & more2 & Hrun2 & Hfl2 & Hsub2).
  simpl. unfold mbind, M_bind. rewrite Hrun1.
  destruct Hcount1 as [[_ Hfl1]|[_ [msg Hfl1]]].
  - exists t2, w2, more2. split; [done|]. split; [congruence|].
    by apply sublist_cons.
  - exists t2, w2, ((url, msg) :: more2). split; [done|].
    split; [by rewrite Hfl2, Hfl1, <- app_assoc|].
    simpl. by apply sublist_skip.
Qed.

End more_runs.

(** X10: an iteration of the loop pauses once when the conversion has
    returned a result, whatever the result, and not at all when it has raised,
    as the pause follows the conversion inside the [try].  So the number of
    pauses of a run is at most the number of URLs that can be fetched, and is
    that number when no conversion can raise after its fetch; a post that is
    fetched and whose PDF name is too long for the check gets no pause. *)
Theorem pauses_after_fetched_posts :
  (∀ E output_dir url t w,
     ∃ t' w',
       process_post E output_dir url t w = (inr t', w')
       ∧ pauses (events_since w w')
         = match (download_and_convert_to_pdf E url output_dir w).1 with
           | inr _ => 1
           | inl _ => 0
           end)
  ∧ (∀ E output_dir urls t w,
       ∃ t' w',
         process_posts E output_dir urls t w = (inr t', w')
         ∧ pauses (events_since w w') ≤ length (reachable E urls)
         ∧ (Forall (λ url, ¬ raises_after_fetch E output_dir url) urls →
            pauses (events_since w w') = length (reachable E urls)))
  ∧ (let w := Sample.empty_world in
     let run := process_posts Demo.untitled_site "blogs" [Sample.long_url] tally0 w in
     reachable Demo.untitled_site [Sample.long_url] = [Sample.long_url]
     ∧ (download_and_convert_to_pdf Demo.untitled_site Sample.long_url "blogs" w).1
       = inl (Exception
                ("[Errno 36] File name too long: "
                 +:+ pdf_path_of Demo.untitled_site "blogs" Sample.long_url
                       Sample.post_text))
     ∧ run.1 = inr (count_error tally0)
     ∧ pauses (events_since w run.2) = 0).
Proof.
  split; [|split].
  - intros E output_dir url t w.
    destruct (process_post_pauses E output_dir url t w)
      as (t' & w' & evs & Hrun & Htr & Hp).
    exists t', w'. split; [done|].
    unfold events_since. by rewrite Htr, drop_app_length.
  - intros E output_dir urls t w.
    destruct (process_posts_pauses E output_dir urls t w)
      as (t' & w' & evs & Hrun & Htr & Hle & Heq).
    exists t', w'. split; [done|].
    unfold events_since. by rewrite Htr, drop_app_length.
  - cbv zeta. split; [by vm_compute|]. split; [by vm_compute|].
    split; by vm_compute.
Qed.

(** X11: the entries that a run of the loop adds to the failure list are for
    URLs of the list, in the order of the list, at most one for each
    position: when the URLs are distinct, as those of discovery are, no URL
    is recorded twice. *)
Theorem failures_follow_urls E output_dir urls t w :
  ∃ t' w' more,
    process_posts E output_dir urls t w = (inr t', w')
    ∧ failed_urls w' = failed_urls w ++ more
    ∧ more.*1 `sublist_of` urls
    ∧ (NoDup urls → NoDup more.*1).
Proof.
  destruct (process_posts_failures E output_dir urls t w)
    as (t' & w' & more & Hrun & Hfl & Hsub).
  exists t', w', more. repeat split; try done.
  intros Hnd. by eapply sublist_NoDup.
Qed.

(** ** main *)

Section main_runs.

Context (E : Env) (h : HashSeed) (base_url output_dir : string).

Lemma main_from_run w :
  main_from E h base_url output_dir w =
  let w1 := logged (EvGet base_url) w in
  match requests_get E base_url with
  | inl e => (FatalError (str_exn e), w1)
  | inr text =>
      match html_parser E text with
      | inl e => (FatalError (str_exn e), w1)
      | inr soup =>
          match blog_links_of h base_url soup with
          | inl e => (FatalError (str_exn e), w1)
          | inr [] => (NoPosts, w1)
          | inr blog_urls =>
              match process_posts E output_dir blog_urls tally0
                      {| fs := fs w1; failed_urls := []; trace := trace w1 |} with
              | (inl e, w') => (FatalError (str_exn e), w')
              | (inr t, w') =>
                  match summarize output_dir t w' with
                  | (inl e, w'') => (FatalError (str_exn e), w'')
                  | (inr o, w'') => (o, w'')
                  end
              end
          end
      end
  end.
Proof.
  unfold main_from, main_body. unfold mbind at 1. unfold M_bind at 1.
  rewrite get_blog_posts_run.
  unfold failed_urls_reset, mbind, M_bind, mret, M_ret. cbv beta iota zeta.
  destruct (requests_get E base_url) as [e|text]; [done|]. cbv beta iota zeta.
  destruct (html_parser E text) as [e|soup]; [done|]. cbv beta iota zeta.
  destruct (blog_links_of h base_url soup) as [e|[|u urls]]; [done..|].
  cbv beta iota zeta.
  by destruct (process_posts E output_dir (u :: urls) tally0 _) as [[e|t] w'].
Qed.

End main_runs.

Section globbing.

Lemma startswith_app s p : Py.startswith s p = true ↔ ∃ r, s = p +:+ r.
Proof.
  revert s. induction p as [|a p IH]; intros s.
  { split; [intros _; by exists s | intros _; by destruct s]. }
  destruct s as [|b s]; simpl.
  { split; [done | by intros [r ?]]. }
  rewrite andb_true_iff, IH. split.
  - intros [->%Ascii.eqb_eq [r ->]]. by exists r.
  - intros [r [= -> ->]]. split; [apply Ascii.eqb_refl | by exists r].
Qed.

Lemma drop_append a b : Py.drop (String.length a) (a +:+ b) = b.
Proof. induction a as [|c a IH]; [by destruct b | done]. Qed.

Lemma endswith_app s suf : Py.endswith s suf = true ↔ ∃ stem, s = stem +:+ suf.
Proof.
  induction s as [|c s IH].
  - change (Py.endswith "" suf) with (String.eqb "" suf || false).
    rewrite orb_false_r, String.eqb_eq. split.
    + intros <-. by exists "".
    + intros [[|d stem] Hs]; [done | discriminate].
  - rewrite endswith_cons, orb_true_iff, String.eqb_eq, IH. split.
    + intros [<-|[stem ->]]; [by exists "" | by exists (String c stem)].
    + intros [[|d stem] Hs]; [by left|].
      rewrite append_cons in Hs. injection Hs as -> ->. right. by exists stem.
Qed.

(** The pattern of the summary matches the files of the directory itself
    whose name ends with the extension. *)
Lemma glob_pdf_spec output_dir p :
  glob_pdf output_dir p = true ↔
  ∃ stem, p = output_dir +:+ "/" +:+ stem +:+ ".pdf"
          ∧ ("/"%char ∉ list_ascii_of_string stem).
Proof.
  unfold glob_pdf. cbv zeta.
  replace (String.length output_dir + 1)
    with (String.length (output_dir +:+ "/"))
    by (by rewrite length_append).
  split.
  - intros [[r ->]%startswith_app Hname]%andb_true_iff.
    rewrite drop_append in Hname.
    apply andb_true_iff in Hname as [[_ Hslash]%andb_true_iff [stem ->]%endswith_app].
    exists stem. split; [by rewrite append_assoc|].
    intros Hin. apply negb_true_iff in Hslash.
    assert (Py.ascii_in "/" (stem +:+ ".pdf") = true) as Hyes; [|congruence].
    apply ascii_in_elem. rewrite chars_append. set_solver.
  - intros (stem & -> & Hstem). rewrite <- (append_assoc output_dir "/").
    apply andb_true_iff. split; [apply startswith_app; by eexists|].
    rewrite drop_append. apply andb_true_iff. split; [apply andb_true_iff; split|].
    + by destruct stem.
    + apply negb_true_iff.
      destruct (Py.ascii_in "/" (stem +:+ ".pdf")) eqn:Hin; [|done].
      apply ascii_in_elem in Hin. rewrite chars_append in Hin.
      apply elem_of_app in Hin as [Hin|Hin]; [done|].
      by apply (ascii_in_elem "/" ".pdf") in Hin.
    + apply endswith_app. by exists stem.
Qed.

(** The files that the summary counts. *)
Lemma total_pdfs_spec output_dir t w s w' :
  summarize output_dir t w = (inr (Summary s), w') →
  ∃ pdfs, NoDup pdfs ∧ length pdfs = total_pdfs s
          ∧ ∀ p, p ∈ pdfs ↔ pdf_of_dir output_dir (fs w) p.
Proof.
  unfold summarize. intros [= <- <-]. cbn [total_pdfs].
  exists (filter (λ p, glob_pdf output_dir p = true) (elements (dom (fs w)))).
  split; [apply NoDup_filter, NoDup_elements|]. split; [done|].
  intros p. unfold pdf_of_dir.
  by rewrite list_elem_of_filter, elem_of_elements, elem_of_dom, glob_pdf_spec,
    (comm and).
Qed.

End globbing.



(** X13: when discovery returns at least one URL, [main] ends with a summary:
    the index page and then every discovered URL have been fetched, in order;
    the three counts add up to the number of URLs; the error count is the
    length of the failure list, which holds the failures of this run only;
    the summary shows the first ten failures, in order, each with its URL and
    the first 80 characters of its message, and the number of those it does
    not show; the PDFs it counts are the files of the output directory
    itself whose name ends with ".pdf", each counted once. *)
Theorem main_summary E h base_url output_dir w text soup urls :
  requests_get E base_url = inr text →
  html_parser E text = inr soup →
  blog_links_of h base_url soup = inr urls →
  urls ≠ [] →
  ∃ s w',
    main_from E h base_url output_dir w = (Summary s, w')
    ∧ fetched (events_since w w') = base_url :: urls
    ∧ processed (counts s) = length urls
    ∧ error_count (counts s) = length (failed_urls w')
    ∧ (failed_urls w').*1 `sublist_of` urls
    ∧ length (shown_failures s) = length (failed_urls w') `min` 10
    ∧ (∀ i url err,
         i < 10 →
         failed_urls w' !! i = Some (url, err) →
         ∃ shown,
           shown_failures s !! i = Some (url, shown)
           ∧ list_ascii_of_string shown = take 80 (list_ascii_of_string err))
    ∧ more_failures s = length (failed_urls w') - 10
    ∧ ∃ pdfs,
        NoDup pdfs
        ∧ length pdfs = total_pdfs s
        ∧ ∀ p, p ∈ pdfs ↔ pdf_of_dir output_dir (fs w') p.
Proof.
  intros Hget Hparse Hlinks Hsome.
  rewrite main_from_run, Hget, Hparse, Hlinks. cbv zeta.
  destruct urls as [|u urls]; [done|].
  set (w1 := {| fs := fs (logged (EvGet base_url) w); failed_urls := [];
                trace := trace (logged (EvGet base_url) w) |}).
  destruct (process_posts_steps E output_dir (u :: urls) tally0 w1)
    as (t & w' & evs & more & Hrun & Htr & Hfetched & Hproc & Hfl & Herr).
  destruct (process_posts_failures E output_dir (u :: urls) tally0 w1)
    as (t2 & w2 & more2 & Hrun2 & Hfl2 & Hsub).
  rewrite Hrun in Hrun2. injection Hrun2 as <- <-.
  rewrite Hrun.
  destruct (summarize output_dir t w') as [[e|o] w''] eqn:Hsum; [done|].
  pose proof Hsum as Hsum'. unfold summarize in Hsum'.
  injection Hsum' as <- <-.
  eexists _, w'. split; [done|].
  apply total_pdfs_spec in Hsum.
  cbn [counts shown_failures more_failures].
  simpl in Hfl, Hfl2. subst more2.
  split.
  { unfold events_since. rewrite Htr. simpl. rewrite <- app_assoc, drop_app_length.
    simpl. by rewrite Hfetched. }
  split; [exact Hproc|]. split; [by rewrite Hfl, Herr|]. split; [done|].
  split; [rewrite length_fmap, length_take; lia|].
  split; [|by split].
  intros i url err Hi Hentry.
  exists (Py.take 80 err). split; [|apply chars_take].
  by rewrite list_lookup_fmap, lookup_take_lt, Hentry.
Qed.

(** The sample site: one post, converted. *)
Lemma main_summary_witness :
  ∃ s w',
    main_from Sample.env Sample.seed "https://site/blog/" "blogs" Sample.empty_world
    = (Summary s, w')
    ∧ fetched (events_since Sample.empty_world w')
      = ["https://site/blog/"; "https://site/blog/p1.html"]
    ∧ processed (counts s) = 1
    ∧ error_count (counts s) = length (failed_urls w')
    ∧ (failed_urls w').*1 `sublist_of` ["https://site/blog/p1.html"]
    ∧ length (shown_failures s) = length (failed_urls w') `min` 10
    ∧ (∀ i url err,
         i < 10 →
         failed_urls w' !! i = Some (url, err) →
         ∃ shown,
           shown_failures s !! i = Some (url, shown)
           ∧ list_ascii_of_string shown = take 80 (list_ascii_of_string err))
    ∧ more_failures s = length (failed_urls w') - 10
    ∧ ∃ pdfs,
        NoDup pdfs
        ∧ length pdfs = total_pdfs s
        ∧ ∀ p, p ∈ pdfs ↔ pdf_of_dir "blogs" (fs w') p.
Proof.
  apply (main_summary Sample.env Sample.seed "https://site/blog/" "blogs"
           Sample.empty_world Sample.index_text Sample.index_doc
           ["https://site/blog/p1.html"]).
  - reflexivity.
  - reflexivity.
  - by vm_compute.
  - discriminate.
Defined.

Section same_anchors.


End same_anchors.



(** ** The title *)

Section stripping.

Context (p : ascii → bool).

Lemma lstrip_by_head s :
  match Py.lstrip_by p s with
  | "" => True
  | String c _ => p c = false
  end.
Proof.
  induction s as [|a s IH]; [done|]. simpl.
  destruct (p a) eqn:Ha; [done|]. by simpl.
Qed.

Lemma rstrip_by_head c s :
  p c = false → ∃ r, Py.rstrip_by p (String c s) = String c r.
Proof. intros Hc. simpl. rewrite Hc. simpl. eauto. Qed.

Lemma last_default (x : ascii) l a b : List.last (x :: l) a = List.last (x :: l) b.
Proof. revert x. induction l as [|y l IH]; intros x; [done|]. apply (IH y). Qed.

Lemma last_cons_head (b : ascii) l a : List.last (b :: l) a = List.last l b.
Proof. destruct l as [|y l]; [done|]. apply (last_default y l a b). Qed.

Lemma rstrip_by_unfold a s :
  Py.rstrip_by p (String a s) =
  if p a && Py.is_empty (Py.rstrip_by p s) then ""
  else String a (Py.rstrip_by p s).
Proof. done. Qed.

Lemma rstrip_by_last s :
  match list_ascii_of_string (Py.rstrip_by p s) with
  | [] => True
  | c :: l => p (List.last l c) = false
  end.
Proof.
  induction s as [|a s IH]; [done|]. rewrite rstrip_by_unfold.
  destruct (Py.rstrip_by p s) as [|b r].
  - cbn [Py.is_empty]. rewrite andb_true_r. by destruct (p a) eqn:Ha.
  - cbn [Py.is_empty]. rewrite andb_false_r.
    cbn [list_ascii_of_string] in *. by rewrite last_cons_head.
Qed.

Lemma strip_by_trimmed s :
  match list_ascii_of_string (Py.strip_by p s) with
  | [] => True
  | c :: l => p c = false ∧ p (List.last l c) = false
  end.
Proof.
  unfold Py.strip_by.
  pose proof (lstrip_by_head s) as Hhead.
  pose proof (rstrip_by_last (Py.lstrip_by p s)) as Hlast.
  destruct (Py.lstrip_by p s) as [|c s']; [done|].
  destruct (rstrip_by_head c s' Hhead) as [r Hr]. rewrite Hr in *.
  simpl in *. done.
Qed.

End stripping.

(** X15: the title of a post neither starts nor ends with a whitespace
    character, whichever element it is taken from. *)
Theorem get_blog_title_trimmed soup : trimmed (get_blog_title soup).
Proof.
  assert (∀ s, trimmed (Py.strip s)) as Hstrip.
  { intros s. apply (strip_by_trimmed Py.is_space). }
  unfold get_blog_title, first_heading.
  destruct (Bs4.find "h1" soup); [apply Hstrip|].
  destruct (Bs4.find "title" soup); [apply Hstrip|].
  destruct (Bs4.find "h2" soup); [apply Hstrip|].
  destruct (Bs4.find "h3" soup); [apply Hstrip|].
  by vm_compute.
Qed.

(** ** More on the directory *)

(** X16: a conversion never removes a file, and changes the content of a
    file that exists only when the file is the backup of the same post, which
    is then the page as fetched. *)
Theorem conversion_keeps_files E output_dir url w :
  let run := download_and_convert_to_pdf E url output_dir w in
  dom (fs w) ⊆ dom (fs run.2)
  ∧ ∀ p content,
      fs w !! p = Some content →
      fs run.2 !! p = Some content
      ∨ ∃ text, requests_get E url = inr text
                ∧ p = html_path_of E output_dir url text
                ∧ fs run.2 !! p = Some text.
Proof.
  intros run. subst run. rewrite convert_run. cbv zeta.
  destruct (requests_get E url) as [e|text]; [by split; [|left]|].
  destruct (filename_error E url text); [by split; [|left]|].
  case_bool_decide as Hex; [by split; [|left]|].
  destruct (stat_error E _); [by split; [|left]|].
  destruct (WEASYPRINT_AVAILABLE E); [|by split; [|left]].
  destruct (render_attempt E _ url _) as [e|pdf].
  - destruct (open_for_write E _); [by split; [|left]|]. simpl. split.
    + rewrite dom_insert_L. set_solver.
    + intros p content Hp.
      destruct (decide (p = html_path_of E output_dir url text)) as [->|Hne].
      * right. exists text. by rewrite lookup_insert_eq.
      * left. by rewrite lookup_insert_ne.
  - simpl. split.
    + rewrite dom_insert_L. set_solver.
    + intros p content Hp. left. rewrite lookup_insert_ne; [done|].
      intros <-. apply Hex. by rewrite Hp.
Qed.

(** X17: two posts with the same filename share one PDF: once the conversion
    of one URL has returned [success], the conversion of another URL whose
    page is parsed and gives the same filename returns [existing], and its
    page is not rendered. *)
Theorem same_filename_skipped E output_dir url url' w w1 text text' :
  download_and_convert_to_pdf E url output_dir w = (inr success, w1) →
  requests_get E url = inr text →
  requests_get E url' = inr text' →
  filename_error E url' text' = None →
  post_filename (soup_of E text') url' = post_filename (soup_of E text) url →
  download_and_convert_to_pdf E url' output_dir w1
  = (inr existing, logged (EvGet url') w1).
Proof.
  intros Hrun Hget Hget' Hname' Hsame.
  rewrite convert_run, Hget in Hrun. cbv zeta in Hrun.
  rewrite convert_run, Hget', Hname'. cbv zeta.
  assert (pdf_path_of E output_dir url' text' = pdf_path_of E output_dir url text)
    as Hpath by (unfold pdf_path_of; by rewrite Hsame).
  rewrite Hpath.
  destruct (filename_error E url text); [done|].
  case_bool_decide as Hex; [done|].
  destruct (stat_error E _); [done|].
  destruct (WEASYPRINT_AVAILABLE E); [|done].
  destruct (render_attempt E _ url _) as [e|pdf].
  { by destruct (open_for_write E _). }
  injection Hrun as <-. simpl.
  rewrite bool_decide_eq_true_2; [done|]. by rewrite lookup_insert_eq.
Qed.

(** Two URLs of a site that serves the same page for both. *)
Lemma same_filename_skipped_witness :
  let w1 := (download_and_convert_to_pdf Twins.env "https://site/blog/a.html"
               "blogs" Sample.empty_world).2 in
  download_and_convert_to_pdf Twins.env "https://site/blog/b.html" "blogs" w1
  = (inr existing, logged (EvGet "https://site/blog/b.html") w1).
Proof.
  intros w1.
  apply (same_filename_skipped Twins.env "blogs" "https://site/blog/a.html"
           "https://site/blog/b.html" Sample.empty_world w1
           Sample.post_text Sample.post_text); reflexivity || by vm_compute.
Defined.

(** X18: when [main] has ended with a summary, a second run of [main] on the
    same site, from the directory that the first run left, ends with a
    summary that counts no new PDF: no file is created, every PDF is as the
    first run left it, and the number of PDFs is the same. *)
Theorem main_second_run E h base_url output_dir w s1 w1 :
  main_from E h base_url output_dir w = (Summary s1, w1) →
  ∃ s2 w2,
    main_from E h base_url output_dir w1 = (Summary s2, w2)
    ∧ new_count (counts s2) = 0
    ∧ dom (fs w2) = dom (fs w1)
    ∧ (∀ p, Py.endswith p ".pdf" = true → fs w2 !! p = fs w1 !! p)
    ∧ total_pdfs s2 = total_pdfs s1.
Proof.
  rewrite main_from_run. cbv zeta.
  destruct (requests_get E base_url) as [e|text] eqn:Hget; [done|].
  destruct (html_parser E text) as [e|soup] eqn:Hparse; [done|].
  destruct (blog_links_of h base_url soup) as [e|[|u urls]] eqn:Hurls; [done..|].
  destruct (process_posts E output_dir (u :: urls) tally0 _) as [[e|t] w'] eqn:Hrun;
    [done|].
  unfold summarize. intros [= <- <-].
  apply process_posts_settles in Hrun as [_ Hset].
  rewrite main_from_run, Hget, Hparse, Hurls. cbv zeta.
  set (w0 := {| fs := fs (logged (EvGet base_url) w');
                failed_urls := [];
                trace := trace (logged (EvGet base_url) w') |}).
  destruct (process_posts_settled E output_dir (dom (fs w')) (u :: urls) tally0 w0 Hset)
    as (t2 & w2 & Hrun2 & Hnew & Hdom & Hpdf); [done|].
  rewrite Hrun2. unfold summarize. eexists _, w2. split; [done|].
  cbn [counts total_pdfs]. split; [done|]. split; [done|]. split; [done|].
  by rewrite Hdom.
Qed.

(** The sample site, run twice. *)
Lemma main_second_run_witness :
  let w1 := (main_from Sample.env Sample.seed "https://site/blog/" "blogs"
               Sample.empty_world).2 in
  ∃ s2 w2,
    main_from Sample.env Sample.seed "https://site/blog/" "blogs" w1 = (Summary s2, w2)
    ∧ new_count (counts s2) = 0
    ∧ dom (fs w2) = dom (fs w1)
    ∧ (∀ p, Py.endswith p ".pdf" = true → fs w2 !! p = fs w1 !! p)
    ∧ total_pdfs s2 = 1.
Proof.
  intros w1.
  apply (main_second_run Sample.env Sample.seed "https://site/blog/" "blogs"
           Sample.empty_world
           {| counts := {| new_count := 1; existing_count := 0; error_count := 0 |};
              total_pdfs := 1; shown_failures := []; more_failures := 0 |} w1).
  by vm_compute.
Defined.
